(** * Siemens MCOM FPGA watchdog driver (drivers/watchdog/mcom_fpga.c)

    A shallow embedding of the driver's watchdog operations, its sysfs
    attributes and its probe routine over a scripted SMBus, followed by the
    properties of the register protocol: the mode read-modify-write, the
    kick pulse, the timeout cache and the attach sequence. *)

From Stdlib Require Import ZArith Lia Ascii String.
From stdpp Require Import gmap strings.

Local Open Scope Z_scope.

(** ** Machine integers *)

(** Conversion to [u16] (the [value] parameter of the SMBus word write). *)
Definition u16 (x : Z) : Z := x mod 65536.

(** Conversion to [u8] (the [value] parameter of the SMBus byte write). *)
Definition u8 (x : Z) : Z := x mod 256.

(** Conversion to [unsigned int] ([wdd->timeout]). *)
Definition u32 (x : Z) : Z := x mod 4294967296.

(** ** Constants of the driver *)

Definition WD_DIS_MASK : Z := 0x7F.
Definition WD_MODE_MASK : Z := 0xF8.
Definition WD_START_MODE : Z := 0x01.
Definition WD_NORMAL_MODE : Z := 0x02.
Definition WD_DOWN_MODE : Z := 0x04.

Definition WD_STATUS_CONTROLL : Z := 0x00.
Definition WD_DISABLE_UBS : Z := 0x12.
Definition WD_UPTIME : Z := 0x20.
Definition WD_NORMALTIME : Z := 0x22.
Definition WD_DOWNTIME : Z := 0x24.
Definition WD_UBSTIME : Z := 0x26.
Definition WD_PEREPHERIE_RESET : Z := 0x28.
Definition WD_WINDOWTIME : Z := 0x2C.
Definition WD_KICK : Z := 0x2E.
Definition WD_TEMP : Z := 0x50.
Definition WD_MVB_STATUS : Z := 0x90.
Definition WD_MVB_CTRL : Z := 0x92.

(** Error numbers of the kernel used by the probe routine
    (include/uapi/asm-generic/errno-base.h). *)
Definition ENOMEM : Z := 12.
Definition ENODEV : Z := 19.

(** ** The SMBus client *)

(** One attempted bus transaction, with the code the bus returned for it. *)
Inductive xfer : Type :=
| ReadWord (reg : Z) (ret : Z)
| WriteWord (reg : Z) (value : Z) (ret : Z)
| WriteByte (reg : Z) (value : Z) (ret : Z).

Global Instance xfer_eq_dec : EqDecision xfer.
Proof. solve_decision. Defined.

(** The client the driver talks to: its bus address, the device's register
    file, the outcome scripted for each coming transaction ([None]: the
    transfer succeeds, [Some e]: it fails with errno [e]; once the script is
    used up every transfer succeeds) and the transactions attempted so far,
    oldest first. Register addresses are the driver's constants, all of
    them within the [u8] command byte. *)
Record i2c_client : Type := mk_client {
  addr : Z;
  regs : gmap Z Z;
  faults : list (option positive);
  xfers : list xfer
}.

(** Driver code runs in a state monad over the client. *)
Definition M (A : Type) : Type := i2c_client -> A * i2c_client.

Definition ret {A : Type} (a : A) : M A := fun c => (a, c).

Definition bind {A B : Type} (m : M A) (k : A -> M B) : M B :=
  fun c => let (a, c') := m c in k a c'.

Declare Scope drv_scope.
Delimit Scope drv_scope with drv.
Notation "x <- m ;; k" := (bind m (fun x => k))
  (at level 100, m at next level, right associativity) : drv_scope.
Local Open Scope drv_scope.

(** The outcome scripted for the next transaction. *)
Definition next_fault (c : i2c_client) : option positive :=
  match faults c with
  | [] => None
  | f :: _ => f
  end.

(** The client after one more transaction [x]: the script advances and the
    transaction is logged. *)
Definition step_bus (x : xfer) (rs : gmap Z Z) (c : i2c_client) : i2c_client :=
  {| addr := addr c; regs := rs; faults := tail (faults c);
     xfers := xfers c ++ [x] |}.

(** The 16-bit word the device holds in register [reg]; a register never
    written reads as zero. *)
Definition reg_word (c : i2c_client) (reg : Z) : Z :=
  u16 (default 0 (regs c !! reg)).

(** Modelled from the spec: the bus read primitive [i2c_smbus_read_word_data]
    (I2C core, not under src/), "readWord(addr: u8) -> Result<u16, BusError>":
    exactly one transaction; a failure is returned as a negative errno, a
    success as the 16-bit word of the register. *)
Definition i2c_smbus_read_word_data (reg : Z) : M Z := fun c =>
  match next_fault c with
  | Some e => (Z.neg e, step_bus (ReadWord reg (Z.neg e)) (regs c) c)
  | None =>
      let w := reg_word c reg in
      (w, step_bus (ReadWord reg w) (regs c) c)
  end.

(** Modelled from the spec: the bus write primitive
    [i2c_smbus_write_word_data] (I2C core, not under src/),
    "writeWord(addr: u8, value: u16) -> Result<(), BusError>": exactly one
    transaction; the argument is converted to the [u16] parameter; a failure
    is returned as a negative errno and leaves the register alone, a success
    returns 0. *)
Definition i2c_smbus_write_word_data (reg : Z) (value : Z) : M Z := fun c =>
  let v := u16 value in
  match next_fault c with
  | Some e => (Z.neg e, step_bus (WriteWord reg v (Z.neg e)) (regs c) c)
  | None => (0, step_bus (WriteWord reg v 0) (<[reg := v]> (regs c)) c)
  end.

(** Modelled from the spec: the byte write [i2c_smbus_write_byte_data] (I2C
    core, not under src/), one bus transaction with a [u8] value under the
    same error convention as the word write. *)
Definition i2c_smbus_write_byte_data (reg : Z) (value : Z) : M Z := fun c =>
  let v := u8 value in
  match next_fault c with
  | Some e => (Z.neg e, step_bus (WriteByte reg v (Z.neg e)) (regs c) c)
  | None => (0, step_bus (WriteByte reg v 0) (<[reg := v]> (regs c)) c)
  end.

(** ** Watchdog operations *)

(** [kick_wdt]: kick bit low, high, low; the first failing write returns. *)
Definition kick_wdt : M Z :=
  err <- i2c_smbus_write_word_data WD_KICK 0x0000 ;;
  if negb (err =? 0) then ret err else
  err <- i2c_smbus_write_word_data WD_KICK 0x0100 ;;
  if negb (err =? 0) then ret err else
  err <- i2c_smbus_write_word_data WD_KICK 0x0000 ;;
  if negb (err =? 0) then ret err else
  ret 0.

(** The part of [struct watchdog_device] the driver touches. *)
Record watchdog_device : Type := mk_wdd {
  timeout : Z
}.

(** [mcom_fpga_set_mode(wdd, mode)], [mode] a [u16]. *)
Definition mcom_fpga_set_mode (mode : Z) : M Z :=
  err <- i2c_smbus_read_word_data WD_STATUS_CONTROLL ;;
  if err <? 0 then ret err else
  let err := Z.lor (Z.land (Z.land err WD_DIS_MASK) WD_MODE_MASK) mode in
  err <- i2c_smbus_write_word_data WD_STATUS_CONTROLL err ;;
  ret err.

Definition mcom_fpga_start : M Z := mcom_fpga_set_mode WD_START_MODE.

Definition mcom_fpga_stop : M Z := mcom_fpga_set_mode WD_DOWN_MODE.

Definition mcom_fpga_ping : M Z := kick_wdt.

(** [mcom_fpga_set_timeout(wdd, timeout)], [timeout] an [unsigned int]; the
    device is returned with its cached timeout as the call leaves it. *)
Definition mcom_fpga_set_timeout (wdd : watchdog_device) (timeout : Z)
  : M (Z * watchdog_device) :=
  r <- i2c_smbus_write_word_data WD_UPTIME timeout ;;
  if r =? 0 then ret (r, {| timeout := timeout |}) else ret (r, wdd).

(** ** sysfs attributes *)

(** One lower-case hexadecimal digit. *)
Definition hex_digit (n : Z) : ascii :=
  match n mod 16 with
  | 0 => "0" | 1 => "1" | 2 => "2" | 3 => "3" | 4 => "4" | 5 => "5"
  | 6 => "6" | 7 => "7" | 8 => "8" | 9 => "9" | 10 => "a" | 11 => "b"
  | 12 => "c" | 13 => "d" | 14 => "e" | _ => "f"
  end%char.

(** [sysfs_emit(buf, "0x%04x\n", v)] for a word [v] (at most four digits):
    the text put in the buffer and the number of characters written. *)
Definition sysfs_emit_word (v : Z) : Z * string :=
  let text :=
    String "0" (String "x"
      (String (hex_digit (v / 4096)) (String (hex_digit (v / 256))
        (String (hex_digit (v / 16)) (String (hex_digit v)
          (String "010" EmptyString)))))) in
  (Z.of_nat (String.length text), text).

(** A [struct device_attribute]: name, file mode and the two callbacks, a
    missing callback being [None]. A show callback takes the buffer and
    returns its code with the buffer; a store callback takes the user's
    text and its length. *)
Record device_attribute : Type := mk_attr {
  attr_name : string;
  attr_mode : Z;
  attr_show : option (string -> M (Z * string));
  attr_store : option (string -> Z -> M Z)
}.

(** Modelled from the spec: the kernel's [DEVICE_ATTR_RW], [DEVICE_ATTR_RO]
    and [DEVICE_ATTR_WO] macros (include/linux/device.h, not under src/), the
    "read-write", "read-only" and "write-only" modes of the access-mode
    table: RW installs both callbacks, RO only show, WO only store. *)
Definition DEVICE_ATTR_RW (name : string) (show : string -> M (Z * string))
    (store : string -> Z -> M Z) : device_attribute :=
  {| attr_name := name; attr_mode := 0x1A4 (* 0644 *);
     attr_show := Some show; attr_store := Some store |}.

Definition DEVICE_ATTR_RO (name : string) (show : string -> M (Z * string))
  : device_attribute :=
  {| attr_name := name; attr_mode := 0x124 (* 0444 *);
     attr_show := Some show; attr_store := None |}.

Definition DEVICE_ATTR_WO (name : string) (store : string -> Z -> M Z)
  : device_attribute :=
  {| attr_name := name; attr_mode := 0x80 (* 0200 *);
     attr_show := None; attr_store := Some store |}.

(** Outcome of an access through the interface: refused before the bus, or
    handed to the callback, whose result is kept. *)
Inductive access (A : Type) : Type :=
| ProtocolViolation
| Dispatched (r : A).
Arguments ProtocolViolation {A}.
Arguments Dispatched {A} r.

(** Modelled from the spec: [readRegister(name)], the sysfs read dispatch
    (not under src/): "mode-checked", an attribute without a show callback is
    "rejected with ProtocolViolation without reaching the bus". *)
Definition readRegister (a : device_attribute) (buf : string)
  : M (access (Z * string)) :=
  match attr_show a with
  | None => ret ProtocolViolation
  | Some show => r <- show buf ;; ret (Dispatched r)
  end.

(** Modelled from the spec: [writeRegister(name, value)], the sysfs write
    dispatch (not under src/): an attribute without a store callback is
    "rejected with ProtocolViolation without reaching the bus". *)
Definition writeRegister (a : device_attribute) (buf : string) (count : Z)
  : M (access Z) :=
  match attr_store a with
  | None => ret ProtocolViolation
  | Some store => r <- store buf count ;; ret (Dispatched r)
  end.

(** Access modes, read off the callbacks an attribute carries. *)
Inductive access_mode : Type := RW | RO | WO.

Global Instance access_mode_eq_dec : EqDecision access_mode.
Proof. solve_decision. Defined.

Definition mode_of (a : device_attribute) : option access_mode :=
  match attr_show a, attr_store a with
  | Some _, Some _ => Some RW
  | Some _, None => Some RO
  | None, Some _ => Some WO
  | None, None => None
  end.

(** The access-mode table as the specification words it, under the names of
    the driver's attributes. *)
Definition spec_access_table : list (string * access_mode) :=
  [ ("status_controll", RW); ("disable_ubs", RW); ("uptime", RW);
    ("normaltime", RW); ("downtime", RW); ("ubstime", RW);
    ("perepherie_reset", WO); ("windowtime", RW); ("temperature", RO);
    ("mvb_status", RO); ("mvb_ctrl", RW) ]%string.

Section Sysfs.

(** [kstrtou16_from_user(buf, count, base, &result)] (lib/kstrtox.c, not
    under src/): the error code and the parsed [u16]. *)
Variable kstrtou16_from_user : string -> Z -> Z -> Z * Z.

Definition mcom_fpga_store_word (buf : string) (count : Z) (reg : Z) : M Z :=
  let (err, result) := kstrtou16_from_user buf count 16 in
  if negb (err =? 0) then ret err else
  err <- i2c_smbus_write_word_data reg result ;;
  if negb (err =? 0) then ret err else
  ret count.

Definition status_controll_show (buf : string) : M (Z * string) :=
  err <- i2c_smbus_read_word_data WD_STATUS_CONTROLL ;;
  if err <? 0 then ret (err, buf) else
  ret (sysfs_emit_word err).

Definition status_controll_store (buf : string) (count : Z) : M Z :=
  mcom_fpga_store_word buf count WD_STATUS_CONTROLL.

Definition disable_ubs_show (buf : string) : M (Z * string) :=
  err <- i2c_smbus_read_word_data WD_DISABLE_UBS ;;
  if err <? 0 then ret (err, buf) else
  ret (sysfs_emit_word err).

Definition disable_ubs_store (buf : string) (count : Z) : M Z :=
  mcom_fpga_store_word buf count WD_DISABLE_UBS.

Definition uptime_show (buf : string) : M (Z * string) :=
  err <- i2c_smbus_read_word_data WD_UPTIME ;;
  if err <? 0 then ret (err, buf) else
  ret (sysfs_emit_word err).

Definition uptime_store (buf : string) (count : Z) : M Z :=
  mcom_fpga_store_word buf count WD_UPTIME.

Definition normaltime_show (buf : string) : M (Z * string) :=
  err <- i2c_smbus_read_word_data WD_NORMALTIME ;;
  if err <? 0 then ret (err, buf) else
  ret (sysfs_emit_word err).

Definition normaltime_store (buf : string) (count : Z) : M Z :=
  mcom_fpga_store_word buf count WD_NORMALTIME.

Definition downtime_show (buf : string) : M (Z * string) :=
  err <- i2c_smbus_read_word_data WD_DOWNTIME ;;
  if err <? 0 then ret (err, buf) else
  ret (sysfs_emit_word err).

Definition downtime_store (buf : string) (count : Z) : M Z :=
  mcom_fpga_store_word buf count WD_DOWNTIME.

Definition ubstime_show (buf : string) : M (Z * string) :=
  err <- i2c_smbus_read_word_data WD_UBSTIME ;;
  if err <? 0 then ret (err, buf) else
  ret (sysfs_emit_word err).

Definition ubstime_store (buf : string) (count : Z) : M Z :=
  mcom_fpga_store_word buf count WD_UBSTIME.

Definition perepherie_reset_store (buf : string) (count : Z) : M Z :=
  mcom_fpga_store_word buf count WD_PEREPHERIE_RESET.

Definition windowtime_show (buf : string) : M (Z * string) :=
  err <- i2c_smbus_read_word_data WD_WINDOWTIME ;;
  if err <? 0 then ret (err, buf) else
  ret (sysfs_emit_word err).

Definition windowtime_store (buf : string) (count : Z) : M Z :=
  mcom_fpga_store_word buf count WD_WINDOWTIME.

Definition temperature_show (buf : string) : M (Z * string) :=
  err <- i2c_smbus_read_word_data WD_TEMP ;;
  if err <? 0 then ret (err, buf) else
  ret (sysfs_emit_word err).

Definition mvb_status_show (buf : string) : M (Z * string) :=
  err <- i2c_smbus_read_word_data WD_MVB_STATUS ;;
  if err <? 0 then ret (err, buf) else
  ret (sysfs_emit_word err).

Definition mvb_ctrl_show (buf : string) : M (Z * string) :=
  err <- i2c_smbus_read_word_data WD_MVB_CTRL ;;
  if err <? 0 then ret (err, buf) else
  ret (sysfs_emit_word err).

Definition mvb_ctrl_store (buf : string) (count : Z) : M Z :=
  mcom_fpga_store_word buf count WD_MVB_CTRL.

Definition dev_attr_status_controll : device_attribute :=
  DEVICE_ATTR_RW "status_controll" status_controll_show status_controll_store.
Definition dev_attr_disable_ubs : device_attribute :=
  DEVICE_ATTR_RW "disable_ubs" disable_ubs_show disable_ubs_store.
Definition dev_attr_uptime : device_attribute :=
  DEVICE_ATTR_RW "uptime" uptime_show uptime_store.
Definition dev_attr_normaltime : device_attribute :=
  DEVICE_ATTR_RW "normaltime" normaltime_show normaltime_store.
Definition dev_attr_downtime : device_attribute :=
  DEVICE_ATTR_RW "downtime" downtime_show downtime_store.
Definition dev_attr_ubstime : device_attribute :=
  DEVICE_ATTR_RW "ubstime" ubstime_show ubstime_store.
Definition dev_attr_perepherie_reset : device_attribute :=
  DEVICE_ATTR_WO "perepherie_reset" perepherie_reset_store.
Definition dev_attr_windowtime : device_attribute :=
  DEVICE_ATTR_RW "windowtime" windowtime_show windowtime_store.
Definition dev_attr_temperature : device_attribute :=
  DEVICE_ATTR_RO "temperature" temperature_show.
Definition dev_attr_mvb_status : device_attribute :=
  DEVICE_ATTR_RO "mvb_status" mvb_status_show.
Definition dev_attr_mvb_ctrl : device_attribute :=
  DEVICE_ATTR_RW "mvb_ctrl" mvb_ctrl_show mvb_ctrl_store.

Definition mcom_fpga_attrs : list device_attribute :=
  [ dev_attr_status_controll;
    dev_attr_disable_ubs;
    dev_attr_uptime;
    dev_attr_normaltime;
    dev_attr_downtime;
    dev_attr_ubstime;
    dev_attr_perepherie_reset;
    dev_attr_windowtime;
    dev_attr_temperature;
    dev_attr_mvb_status;
    dev_attr_mvb_ctrl ].

End Sysfs.

(** ** Probe *)

Record mcom_fpga_data : Type := mk_data {
  wdd : watchdog_device
}.

(** What a probe leaves behind: its return code, the driver data attached to
    the client by [i2c_set_clientdata], and the device handed to
    [watchdog_register_device] when that call is reached. *)
Record probe_result : Type := mk_probe {
  probe_ret : Z;
  clientdata : option mcom_fpga_data;
  registered : option watchdog_device
}.

(** The two handles a probe works with: the client it is handed, and the
    client the file-level [mcom_fpga_client] designates. The source neither
    declares nor assigns that global, so it is an input of the probe:
    [None] when it designates the probed client itself, [Some g] when it
    designates another client [g]. *)
Record probe_handles : Type := mk_handles {
  client : i2c_client;
  mcom_fpga_client : option i2c_client
}.

(** The client [mcom_fpga_client] designates. *)
Definition global_client (s : probe_handles) : i2c_client :=
  match mcom_fpga_client s with
  | None => client s
  | Some g => g
  end.

(** The probe runs in a state monad over the two handles. *)
Definition PM (A : Type) : Type := probe_handles -> A * probe_handles.

Definition pret {A : Type} (a : A) : PM A := fun s => (a, s).

Definition pbind {A B : Type} (m : PM A) (k : A -> PM B) : PM B :=
  fun s => let (a, s') := m s in k a s'.

Notation "x <~ m ;; k" := (pbind m (fun x => k))
  (at level 100, m at next level, right associativity) : drv_scope.

(** A bus operation on the probed client. *)
Definition on_client {A : Type} (m : M A) : PM A := fun s =>
  let (a, c') := m (client s) in
  (a, {| client := c'; mcom_fpga_client := mcom_fpga_client s |}).

(** A bus operation on the client [mcom_fpga_client] designates. *)
Definition on_global {A : Type} (m : M A) : PM A := fun s =>
  match mcom_fpga_client s with
  | None =>
      let (a, c') := m (client s) in
      (a, {| client := c'; mcom_fpga_client := None |})
  | Some g =>
      let (a, g') := m g in
      (a, {| client := client s; mcom_fpga_client := Some g' |})
  end.

Section Probe.

(** [i2c_check_functionality(client->adapter, ...)] for the SMBus byte and
    word transfers the probe asks for (I2C core, not under src/). *)
Variable i2c_check_functionality : i2c_client -> bool.

(** Whether [devm_kzalloc] returns memory; the memory is zeroed. *)
Variable kzalloc_ok : bool.

(** The module parameter [wdt_timeout], an [int]. *)
Variable wdt_timeout : Z.

(** [watchdog_init_timeout(wdd, timeout_parm, dev)] (watchdog core, not
    under src/): the device with the timeout the core settles on. *)
Variable watchdog_init_timeout : watchdog_device -> Z -> watchdog_device.

(** The return code of [watchdog_register_device(wdd)] (watchdog core, not
    under src/). *)
Variable watchdog_register_device : watchdog_device -> Z.

Definition devm_kzalloc : option mcom_fpga_data :=
  if kzalloc_ok then Some {| wdd := {| timeout := 0 |} |} else None.

(** [mcom_fpga_probe(client)]. The checks, the read of the up-time register
    and [mcom_fpga_set_timeout] work on the probed [client]; the write that
    sets port 0 as output goes to [mcom_fpga_client]. [finish] is the code
    from the [mcom_fpga_set_timeout] call to the end, reached from both
    branches of the test on the timeout. *)
Definition mcom_fpga_probe : PM probe_result := fun s =>
  let failed (code : Z) : probe_result :=
    {| probe_ret := code; clientdata := None; registered := None |} in
  let finish (data : mcom_fpga_data) : PM probe_result :=
    r <~ on_client (mcom_fpga_set_timeout (wdd data) (timeout (wdd data))) ;;
    let (r, w) := r in
    let data := {| wdd := w |} in
    if negb (r =? 0) then pret (failed r) else
    r <~ on_global (i2c_smbus_write_byte_data 0x06 0x00) ;;
    if negb (r =? 0) then
      pret {| probe_ret := r; clientdata := Some data; registered := None |}
    else
    pret {| probe_ret := watchdog_register_device (wdd data);
            clientdata := Some data;
            registered := Some (wdd data) |} in
  if negb (i2c_check_functionality (client s)) then (failed (- ENODEV), s)
  else if negb (addr (client s) =? 0x3c) then (failed (- ENODEV), s)
  else
    match devm_kzalloc with
    | None => (failed (- ENOMEM), s)
    | Some data =>
        let data :=
          {| wdd := watchdog_init_timeout (wdd data) (u32 wdt_timeout) |} in
        (if timeout (wdd data) =? 0 then
           val <~ on_client (i2c_smbus_read_word_data WD_UPTIME) ;;
           if val <? 0 then pret (failed val) else
           finish {| wdd := {| timeout := u32 val |} |}
         else finish data) s
    end.

End Probe.

(** ** A bench for running the driver *)

(** A client at the driver's address with the given registers and script. *)
Definition bench (rs : gmap Z Z) (fs : list (option positive)) : i2c_client :=
  {| addr := 0x3c; regs := rs; faults := fs; xfers := [] |}.

(** Modelled from the spec: [watchdog_init_timeout] with "a single optional
    startup timeout override, in seconds, consumed only at attach time": a
    non-zero override becomes the timeout, zero leaves it unset. *)
Definition override_timeout (w : watchdog_device) (parm : Z) : watchdog_device :=
  if parm =? 0 then w else {| timeout := parm |}.



(** Whether the coming [n] transfers of a script all succeed. *)
Fixpoint script_ok (n : nat) (fs : list (option positive)) : bool :=
  match n, fs with
  | O, _ => true
  | S _, [] => true
  | S n', None :: fs' => script_ok n' fs'
  | S _, Some _ :: _ => false
  end.

Definition bus_ok (n : nat) (c : i2c_client) : bool := script_ok n (faults c).

(** The canonical mode values. *)
Definition canonical_mode (m : Z) : bool :=
  (m =? WD_START_MODE) || (m =? WD_NORMAL_MODE) || (m =? WD_DOWN_MODE).

(** The three writes of a kick pulse, with the codes the bus gave them. *)
Definition kick_writes (rets : list Z) : list xfer :=
  zip_with (fun v r => WriteWord WD_KICK v r) [0x0000; 0x0100; 0x0000] rets.

(** The up-time register holds the cached timeout, as far as its sixteen
    bits go. *)
Definition coherent (w : watchdog_device) (c : i2c_client) : Prop :=
  reg_word c WD_UPTIME = u16 (timeout w).

(** The body the show callbacks have in common, for the register [reg]. *)
Definition show_word (reg : Z) (buf : string) : M (Z * string) :=
  err <- i2c_smbus_read_word_data reg ;;
  if err <? 0 then ret (err, buf) else
  ret (sysfs_emit_word err).

(** The register each entry of [mcom_fpga_attrs] addresses, in the order of
    the array. *)
Definition attr_regs : list Z :=
  [ WD_STATUS_CONTROLL; WD_DISABLE_UBS; WD_UPTIME; WD_NORMALTIME;
    WD_DOWNTIME; WD_UBSTIME; WD_PEREPHERIE_RESET; WD_WINDOWTIME; WD_TEMP;
    WD_MVB_STATUS; WD_MVB_CTRL ].

(** The register a transfer goes to. *)
Definition xfer_reg (x : xfer) : Z :=
  match x with
  | ReadWord reg _ => reg
  | WriteWord reg _ _ => reg
  | WriteByte reg _ _ => reg
  end.

(** An attribute addresses the register [reg]: it has a callback, each
    show makes its one transfer on [reg], and so does each store of a text
    that parses. *)
Definition addresses (kstrtou16_from_user : string -> Z -> Z -> Z * Z)
    (a : device_attribute) (reg : Z) : Prop :=
  mode_of a <> None /\
  (forall show buf c,
     attr_show a = Some show ->
     map xfer_reg (xfers (snd (show buf c))) = map xfer_reg (xfers c) ++ [reg]) /\
  (forall store buf count c,
     attr_store a = Some store ->
     fst (kstrtou16_from_user buf count 16) = 0 ->
     map xfer_reg (xfers (snd (store buf count c)))
     = map xfer_reg (xfers c) ++ [reg]).

(** * Properties *)

(** ** Machine integers and the mode mask *)

Lemma u16_small (x : Z) : 0 <= x < 65536 -> u16 x = x.
Proof. intros H. unfold u16. apply Z.mod_small. exact H. Qed.

Lemma u16_range (x : Z) : 0 <= u16 x < 65536.
Proof. unfold u16. apply Z.mod_pos_bound. lia. Qed.

Lemma u32_small (x : Z) : 0 <= x < 4294967296 -> u32 x = x.
Proof. intros H. unfold u32. apply Z.mod_small. exact H. Qed.

Lemma reg_word_range (c : i2c_client) (reg : Z) : 0 <= reg_word c reg < 65536.
Proof. apply u16_range. Qed.

(** The two masks of the driver meet in bits 3 to 6. *)
Lemma masks_meet (v : Z) :
  Z.land (Z.land v WD_DIS_MASK) WD_MODE_MASK = Z.land v 0x78.
Proof. rewrite <- Z.land_assoc. reflexivity. Qed.

Lemma land_0x78_range (v : Z) : 0 <= Z.land v 0x78 < 65536.
Proof.
  assert (E : Z.land v 0x78 = Z.land (v mod 2 ^ 7) 0x78).
  { rewrite <- Z.land_ones by lia. rewrite <- Z.land_assoc. reflexivity. }
  rewrite E.
  assert (Hm : 0 <= v mod 2 ^ 7) by (apply Z.mod_pos_bound; lia).
  assert (H0 : 0 <= Z.land (v mod 2 ^ 7) 0x78)
    by (apply Z.land_nonneg; right; lia).
  split; [ exact H0 | ].
  destruct (Z.eq_dec (Z.land (v mod 2 ^ 7) 0x78) 0) as [-> | N]; [ lia | ].
  apply (Z.log2_lt_cancel _ 65536).
  eapply Z.le_lt_trans; [ apply Z.log2_land; lia | ].
  apply Z.min_lt_iff. right. reflexivity.
Qed.

Lemma lor_u16 (a b : Z) :
  0 <= a < 65536 -> 0 <= b < 65536 -> 0 <= Z.lor a b < 65536.
Proof.
  intros Ha Hb. split.
  - apply Z.lor_nonneg. lia.
  - destruct (Z.eq_dec (Z.lor a b) 0) as [E | E]; [ lia | ].
    apply (Z.log2_lt_cancel _ 65536).
    rewrite Z.log2_lor by lia.
    change (Z.log2 65536) with 16.
    apply Z.max_lub_lt.
    + destruct (Z.eq_dec a 0) as [-> | Na]; [ reflexivity | ].
      apply Z.log2_lt_pow2; [ lia | change (2 ^ 16) with 65536; lia ].
    + destruct (Z.eq_dec b 0) as [-> | Nb]; [ reflexivity | ].
      apply Z.log2_lt_pow2; [ lia | change (2 ^ 16) with 65536; lia ].
Qed.

(** The word [mcom_fpga_set_mode] computes fits the [u16] parameter of the
    write, so the conversion leaves it as it is. *)
Lemma mode_word_u16 (v mode : Z) :
  0 <= mode < 65536 ->
  u16 (Z.lor (Z.land (Z.land v WD_DIS_MASK) WD_MODE_MASK) mode)
  = Z.lor (Z.land (Z.land v WD_DIS_MASK) WD_MODE_MASK) mode.
Proof.
  intros H. apply u16_small. rewrite masks_meet.
  apply lor_u16; [ apply land_0x78_range | exact H ].
Qed.

Lemma canonical_mode_cases (m : Z) :
  canonical_mode m = true -> m = 1 \/ m = 2 \/ m = 4.
Proof.
  unfold canonical_mode, WD_START_MODE, WD_NORMAL_MODE, WD_DOWN_MODE.
  intros H. apply orb_prop in H as [H | H]; [ apply orb_prop in H as [H | H] | ];
    apply Z.eqb_eq in H; auto.
Qed.

(** ** The bus primitives *)

Lemma next_fault_step (x : xfer) (rs : gmap Z Z) (c : i2c_client) :
  faults (step_bus x rs c) = tail (faults c).
Proof. reflexivity. Qed.

Lemma bus_ok_S (n : nat) (c : i2c_client) :
  bus_ok (S n) c = true ->
  next_fault c = None /\ forall x rs, bus_ok n (step_bus x rs c) = true.
Proof.
  unfold bus_ok, next_fault. cbn [faults step_bus].
  destruct (faults c) as [ | [e | ] fs ]; simpl.
  - intros _. split; [ reflexivity | ]. intros _ _. destruct n; reflexivity.
  - discriminate.
  - intros H. split; [ reflexivity | ]. intros _ _. exact H.
Qed.

Lemma read_word_ok (reg : Z) (c : i2c_client) :
  next_fault c = None ->
  i2c_smbus_read_word_data reg c
  = (reg_word c reg, step_bus (ReadWord reg (reg_word c reg)) (regs c) c).
Proof. intros H. unfold i2c_smbus_read_word_data. rewrite H. reflexivity. Qed.

Lemma read_word_fail (reg : Z) (c : i2c_client) (e : positive) :
  next_fault c = Some e ->
  i2c_smbus_read_word_data reg c
  = (Z.neg e, step_bus (ReadWord reg (Z.neg e)) (regs c) c).
Proof. intros H. unfold i2c_smbus_read_word_data. rewrite H. reflexivity. Qed.

Lemma write_word_ok (reg value : Z) (c : i2c_client) :
  next_fault c = None ->
  i2c_smbus_write_word_data reg value c
  = (0, step_bus (WriteWord reg (u16 value) 0) (<[reg := u16 value]> (regs c)) c).
Proof. intros H. unfold i2c_smbus_write_word_data. rewrite H. reflexivity. Qed.

Lemma write_word_fail (reg value : Z) (c : i2c_client) (e : positive) :
  next_fault c = Some e ->
  i2c_smbus_write_word_data reg value c
  = (Z.neg e, step_bus (WriteWord reg (u16 value) (Z.neg e)) (regs c) c).
Proof. intros H. unfold i2c_smbus_write_word_data. rewrite H. reflexivity. Qed.

(** Every word write is one logged transaction carrying the code returned. *)
Lemma write_word_xfers (reg value : Z) (c : i2c_client) :
  xfers (snd (i2c_smbus_write_word_data reg value c))
  = xfers c ++ [WriteWord reg (u16 value)
                  (fst (i2c_smbus_write_word_data reg value c))].
Proof.
  unfold i2c_smbus_write_word_data. destruct (next_fault c); reflexivity.
Qed.

Lemma reg_word_written (x : xfer) (reg v : Z) (rs : gmap Z Z)
    (c : i2c_client) :
  0 <= v < 65536 ->
  reg_word (step_bus x (<[reg := v]> rs) c) reg = v.
Proof.
  intros H. unfold reg_word, step_bus. simpl.
  rewrite lookup_insert_eq. simpl. apply u16_small. exact H.
Qed.

(** ** The kick pulse *)

Ltac run_bus :=
  unfold bind, ret, i2c_smbus_write_word_data, i2c_smbus_read_word_data,
    i2c_smbus_write_byte_data, next_fault, step_bus; cbn.

(** When the second write of the pulse fails, its error is returned and the
    third write is not attempted. *)
Lemma kick_second_write_fails (c : i2c_client) (e : positive)
    (fs : list (option positive)) :
  faults c = None :: Some e :: fs ->
  fst (mcom_fpga_ping c) = Z.neg e /\
  xfers (snd (mcom_fpga_ping c))
  = xfers c ++ [WriteWord WD_KICK 0x0000 0; WriteWord WD_KICK 0x0100 (Z.neg e)].
Proof.
  intros H. unfold mcom_fpga_ping, kick_wdt. run_bus. rewrite H. cbn.
  split; [ reflexivity | ]. rewrite <- app_assoc. reflexivity.
Qed.

(** C2: a kick issues the writes 0x0000, 0x0100, 0x0000 to the kick
    register, in this order; either all three succeed and the kick returns
    0, or the first failing write, the [k]-th of the script with [k < 3],
    is the last one attempted and its error is what the kick returns. *)
Theorem kick_wdt_pulse (c : i2c_client) :
  exists rets : list Z,
    xfers (snd (mcom_fpga_ping c)) = xfers c ++ kick_writes rets /\
    ((fst (mcom_fpga_ping c) = 0 /\ rets = [0; 0; 0] /\ bus_ok 3 c = true) \/
     (exists (k : nat) (e : positive),
        (k < 3)%nat /\ faults c !! k = Some (Some e) /\
        bus_ok k c = true /\
        fst (mcom_fpga_ping c) = Z.neg e /\
        rets = replicate k 0 ++ [Z.neg e])).
Proof.
  unfold mcom_fpga_ping, kick_wdt, bus_ok. run_bus.
  destruct (faults c) as [ | [e1 | ] fs1 ]; cbn; rewrite <- ?app_assoc; cbn.
  - exists [0; 0; 0]. split; [ reflexivity | left; auto ].
  - exists [Z.neg e1]. split; [ reflexivity | right ].
    exists 0%nat, e1. repeat split; auto with lia.
  - destruct fs1 as [ | [e2 | ] fs2 ]; cbn; rewrite <- ?app_assoc; cbn.
    + exists [0; 0; 0]. split; [ reflexivity | left; auto ].
    + exists [0; Z.neg e2]. split; [ reflexivity | right ].
      exists 1%nat, e2. repeat split; auto with lia.
    + destruct fs2 as [ | [e3 | ] fs3 ]; cbn; rewrite <- ?app_assoc; cbn.
      * exists [0; 0; 0]. split; [ reflexivity | left; auto ].
      * exists [0; 0; Z.neg e3]. split; [ reflexivity | right ].
        exists 2%nat, e3. repeat split; auto with lia.
      * exists [0; 0; 0]. split; [ reflexivity | left; auto ].
Qed.

(** ** The mode read-modify-write *)

Lemma set_mode_read_fail (mode : Z) (c : i2c_client) (e : positive) :
  next_fault c = Some e ->
  mcom_fpga_set_mode mode c
  = (Z.neg e, step_bus (ReadWord WD_STATUS_CONTROLL (Z.neg e)) (regs c) c).
Proof.
  intros H. unfold mcom_fpga_set_mode, bind.
  rewrite (read_word_fail _ _ _ H). reflexivity.
Qed.

Lemma set_mode_read_ok (mode : Z) (c : i2c_client) :
  next_fault c = None ->
  mcom_fpga_set_mode mode c
  = i2c_smbus_write_word_data WD_STATUS_CONTROLL
      (Z.lor (Z.land (Z.land (reg_word c WD_STATUS_CONTROLL) WD_DIS_MASK)
                WD_MODE_MASK) mode)
      (step_bus (ReadWord WD_STATUS_CONTROLL (reg_word c WD_STATUS_CONTROLL))
         (regs c) c).
Proof.
  intros H. unfold mcom_fpga_set_mode, bind.
  rewrite (read_word_ok _ _ H).
  pose proof (reg_word_range c WD_STATUS_CONTROLL) as Hr.
  destruct (Z.ltb_spec (reg_word c WD_STATUS_CONTROLL) 0) as [Hlt | _]; [ lia | ].
  destruct (i2c_smbus_write_word_data _ _ _) as [r c']. reflexivity.
Qed.

(** With the two transfers succeeding, the whole effect of a mode change. *)
Lemma set_mode_ok (mode : Z) (c : i2c_client) :
  0 <= mode < 65536 ->
  bus_ok 2 c = true ->
  let v := reg_word c WD_STATUS_CONTROLL in
  let w := Z.lor (Z.land v 0x78) mode in
  mcom_fpga_set_mode mode c
  = (0, step_bus (WriteWord WD_STATUS_CONTROLL w 0)
          (<[WD_STATUS_CONTROLL := w]> (regs c))
          (step_bus (ReadWord WD_STATUS_CONTROLL v) (regs c) c)).
Proof.
  intros Hm Hok v w.
  apply bus_ok_S in Hok as [H1 Hok].
  specialize (Hok (ReadWord WD_STATUS_CONTROLL v) (regs c)).
  apply bus_ok_S in Hok as [H2 _].
  rewrite (set_mode_read_ok _ _ H1), (write_word_ok _ _ _ H2).
  rewrite (mode_word_u16 _ _ Hm), masks_meet. reflexivity.
Qed.

(** A mode change that returns 0 had both its transfers succeed. *)
Lemma set_mode_zero_bus_ok (mode : Z) (c : i2c_client) :
  fst (mcom_fpga_set_mode mode c) = 0 -> bus_ok 2 c = true.
Proof.
  intros H. unfold bus_ok.
  destruct (next_fault c) as [e | ] eqn:Hf.
  - rewrite (set_mode_read_fail _ _ _ Hf) in H. discriminate H.
  - rewrite (set_mode_read_ok _ _ Hf) in H. revert H.
    unfold i2c_smbus_write_word_data, next_fault in *. cbn [faults step_bus].
    destruct (faults c) as [ | [e1 | ] [ | [e2 | ] fs2 ] ]; cbn;
      auto; discriminate.
Qed.

Lemma testbit_0x78 (i : Z) :
  0 <= i -> Z.testbit 0x78 i = (3 <=? i) && (i <=? 6).
Proof.
  intros H.
  assert (C : i = 0 \/ i = 1 \/ i = 2 \/ i = 3 \/ i = 4 \/ i = 5 \/ i = 6 \/ 7 <= i)
    by lia.
  destruct C as [-> | [-> | [-> | [-> | [-> | [-> | [-> | C]]]]]]];
    try reflexivity.
  rewrite Z.bits_above_log2 by (cbn; lia).
  destruct (Z.leb_spec i 6) as [Hle | _]; [ lia | ].
  apply eq_sym, andb_false_r.
Qed.

Lemma mode_word_low_bits (v m : Z) :
  canonical_mode m = true -> Z.land (Z.lor (Z.land v 0x78) m) 0x07 = m.
Proof.
  intros H. rewrite Z.land_lor_distr_l, <- Z.land_assoc.
  change (Z.land 0x78 0x07) with 0. rewrite Z.land_0_r, Z.lor_0_l.
  destruct (canonical_mode_cases _ H) as [-> | [-> | ->]]; reflexivity.
Qed.

Lemma mode_word_kept_bits (v m : Z) :
  canonical_mode m = true ->
  Z.land (Z.lor (Z.land v 0x78) m) 0x78 = Z.land v 0x78.
Proof.
  intros H. rewrite Z.land_lor_distr_l, <- Z.land_assoc.
  change (Z.land 0x78 0x78) with 0x78.
  destruct (canonical_mode_cases _ H) as [-> | [-> | ->]];
    cbn [Z.land Pos.land]; apply Z.lor_0_r.
Qed.

(** The two transactions of a mode change whose read succeeds. *)
Lemma set_mode_xfers (mode : Z) (c : i2c_client) :
  0 <= mode < 65536 ->
  next_fault c = None ->
  xfers (snd (mcom_fpga_set_mode mode c))
  = xfers c ++
    [ReadWord WD_STATUS_CONTROLL (reg_word c WD_STATUS_CONTROLL);
     WriteWord WD_STATUS_CONTROLL
       (Z.lor (Z.land (Z.land (reg_word c WD_STATUS_CONTROLL) WD_DIS_MASK)
                 WD_MODE_MASK) mode)
       (fst (mcom_fpga_set_mode mode c))].
Proof.
  intros Hm Hf. rewrite (set_mode_read_ok _ _ Hf), write_word_xfers.
  rewrite (mode_word_u16 _ _ Hm). cbn [xfers step_bus].
  rewrite <- app_assoc. reflexivity.
Qed.

(** C3: a mode change reads the status/control register first. A failing
    read returns its error with the read as the only transaction and the
    registers as they were; a read returning [oldValue] is followed by one
    write, of [(oldValue & 0x7F & 0xF8) | target]. *)
Theorem set_mode_read_modify_write (target : Z) (c : i2c_client) :
  0 <= target < 65536 ->
  match next_fault c with
  | Some e =>
      fst (mcom_fpga_set_mode target c) = Z.neg e /\
      xfers (snd (mcom_fpga_set_mode target c))
      = xfers c ++ [ReadWord WD_STATUS_CONTROLL (Z.neg e)] /\
      regs (snd (mcom_fpga_set_mode target c)) = regs c
  | None =>
      let oldValue := reg_word c WD_STATUS_CONTROLL in
      xfers (snd (mcom_fpga_set_mode target c))
      = xfers c ++
        [ReadWord WD_STATUS_CONTROLL oldValue;
         WriteWord WD_STATUS_CONTROLL
           (Z.lor (Z.land (Z.land oldValue 0x7F) 0xF8) target)
           (fst (mcom_fpga_set_mode target c))]
  end.
Proof.
  intros Ht. destruct (next_fault c) as [e | ] eqn:Hf.
  - rewrite (set_mode_read_fail _ _ _ Hf). auto.
  - exact (set_mode_xfers _ _ Ht Hf).
Qed.

Lemma set_mode_read_modify_write_witness :
  0 <= 1 < 65536 /\
  xfers (snd (mcom_fpga_set_mode 1 (bench {[ 0 := 0xFFFF ]} [])))
  = [ReadWord 0 0xFFFF; WriteWord 0 0x79 0].
Proof.
  split; [ lia | ].
  exact (set_mode_read_modify_write 1 (bench {[ 0 := 0xFFFF ]} [])
           ltac:(lia)).
Defined.

(** C1, as stated, fails: with the register at 0x02 a successful change to
    the start mode leaves 0x01 in the low seven bits, not the 0x02 that was
    there. *)
Lemma set_mode_disable_bits_not_kept :
  ~ (forall (m : Z) (c : i2c_client),
       canonical_mode m = true ->
       fst (mcom_fpga_set_mode m c) = 0 ->
       Z.land (reg_word (snd (mcom_fpga_set_mode m c)) WD_STATUS_CONTROLL) 0x07
       = m /\
       Z.land (reg_word (snd (mcom_fpga_set_mode m c)) WD_STATUS_CONTROLL)
         WD_DIS_MASK
       = Z.land (reg_word c WD_STATUS_CONTROLL) WD_DIS_MASK).
Proof.
  intros H.
  assert (H0 : fst (mcom_fpga_set_mode WD_START_MODE
                      (bench {[ WD_STATUS_CONTROLL := 0x02 ]} [])) = 0)
    by (vm_compute; reflexivity).
  destruct (H WD_START_MODE (bench {[ WD_STATUS_CONTROLL := 0x02 ]} [])
              eq_refl H0) as [_ H2].
  vm_compute in H2. discriminate H2.
Qed.

(** C1, amended: after a successful change to a canonical mode [m] the
    status/control register holds [(v & 0x78) | m] for the value [v] it held
    before: its low three bits are [m] and its bits 3 to 6 are those of
    [v]. *)
Theorem set_mode_canonical_result (m : Z) (c : i2c_client) :
  canonical_mode m = true ->
  fst (mcom_fpga_set_mode m c) = 0 ->
  let v := reg_word c WD_STATUS_CONTROLL in
  let w := reg_word (snd (mcom_fpga_set_mode m c)) WD_STATUS_CONTROLL in
  w = Z.lor (Z.land v 0x78) m /\
  Z.land w 0x07 = m /\
  Z.land w 0x78 = Z.land v 0x78.
Proof.
  intros Hm H0 v w.
  assert (Hr : 0 <= m < 65536)
    by (destruct (canonical_mode_cases _ Hm) as [-> | [-> | ->]]; lia).
  assert (Hw : w = Z.lor (Z.land v 0x78) m).
  { subst w. rewrite (set_mode_ok m c Hr (set_mode_zero_bus_ok _ _ H0)).
    cbn [snd]. apply reg_word_written.
    apply lor_u16; [ apply land_0x78_range | exact Hr ]. }
  rewrite Hw. split; [ reflexivity | ]. split.
  - apply mode_word_low_bits, Hm.
  - apply mode_word_kept_bits, Hm.
Qed.

Lemma set_mode_canonical_result_witness :
  canonical_mode 4 = true /\
  fst (mcom_fpga_set_mode 4 (bench {[ 0 := 0xABCD ]} [])) = 0 /\
  reg_word (snd (mcom_fpga_set_mode 4 (bench {[ 0 := 0xABCD ]} []))) 0 = 0x4C.
Proof.
  assert (H0 : fst (mcom_fpga_set_mode 4 (bench {[ 0 := 0xABCD ]} [])) = 0)
    by (vm_compute; reflexivity).
  split; [ reflexivity | ]. split; [ exact H0 | ].
  exact (proj1 (set_mode_canonical_result 4 (bench {[ 0 := 0xABCD ]} [])
                  eq_refl H0)).
Defined.

(** C9: of the value [v] read, a mode change carries over bits 3 to 6 and
    nothing else: the word it writes is [kept | mode], where bit [i] of
    [kept] is bit [i] of [v] for [3 <= i <= 6] and zero for every other
    [i], the bits 0 to 2, bit 7 and the upper byte included. *)
Theorem set_mode_keeps_bits_3_to_6 (mode : Z) (c : i2c_client) :
  0 <= mode < 65536 ->
  next_fault c = None ->
  let v := reg_word c WD_STATUS_CONTROLL in
  exists kept : Z,
    kept = Z.land (Z.land v WD_DIS_MASK) WD_MODE_MASK /\
    (forall i : Z,
       0 <= i -> Z.testbit kept i = Z.testbit v i && ((3 <=? i) && (i <=? 6))) /\
    xfers (snd (mcom_fpga_set_mode mode c))
    = xfers c ++
      [ReadWord WD_STATUS_CONTROLL v;
       WriteWord WD_STATUS_CONTROLL (Z.lor kept mode)
         (fst (mcom_fpga_set_mode mode c))].
Proof.
  intros Hm Hf v. exists (Z.land (Z.land v WD_DIS_MASK) WD_MODE_MASK).
  split; [ reflexivity | ]. split.
  - intros i Hi. rewrite masks_meet, Z.land_spec, (testbit_0x78 i Hi).
    reflexivity.
  - exact (set_mode_xfers _ _ Hm Hf).
Qed.

Lemma set_mode_keeps_bits_3_to_6_witness :
  0 <= 2 < 65536 /\
  next_fault (bench {[ 0 := 0xFFFF ]} []) = None /\
  exists kept : Z,
    kept = Z.land (Z.land 0xFFFF WD_DIS_MASK) WD_MODE_MASK /\
    (forall i : Z,
       0 <= i ->
       Z.testbit kept i = Z.testbit 0xFFFF i && ((3 <=? i) && (i <=? 6))) /\
    xfers (snd (mcom_fpga_set_mode 2 (bench {[ 0 := 0xFFFF ]} [])))
    = [ReadWord 0 0xFFFF; WriteWord 0 (Z.lor kept 2) 0].
Proof.
  split; [ lia | ]. split; [ reflexivity | ].
  exact (set_mode_keeps_bits_3_to_6 2 (bench {[ 0 := 0xFFFF ]} [])
           ltac:(lia) eq_refl).
Defined.

(** C4, as stated, fails: the mode value 0x03 is not refused; on a bus
    without faults the call returns 0 after a read and a write. *)
Lemma set_mode_noncanonical_reaches_bus :
  ~ (forall (mode : Z) (c : i2c_client),
       0 <= mode < 65536 ->
       canonical_mode mode = false ->
       fst (mcom_fpga_set_mode mode c) <> 0 /\
       xfers (snd (mcom_fpga_set_mode mode c)) = xfers c).
Proof.
  intros H.
  destruct (H 0x03 (bench ∅ []) ltac:(lia) eq_refl) as [H1 _].
  apply H1. reflexivity.
Qed.

(** C4, amended: the mode value is not checked. For a value outside the
    canonical set the status read is issued all the same; when the read and
    the write succeed the call returns 0 and the register holds
    [(v & 0x78) | mode], otherwise the call returns the negative code of
    the bus. *)
Theorem set_mode_unchecked (mode : Z) (c : i2c_client) :
  0 <= mode < 65536 ->
  canonical_mode mode = false ->
  (exists (r : Z) (rest : list xfer),
     xfers (snd (mcom_fpga_set_mode mode c))
     = xfers c ++ ReadWord WD_STATUS_CONTROLL r :: rest) /\
  if bus_ok 2 c
  then fst (mcom_fpga_set_mode mode c) = 0 /\
       reg_word (snd (mcom_fpga_set_mode mode c)) WD_STATUS_CONTROLL
       = Z.lor (Z.land (reg_word c WD_STATUS_CONTROLL) 0x78) mode
  else fst (mcom_fpga_set_mode mode c) < 0.
Proof.
  intros Hm _. split.
  - destruct (next_fault c) as [e | ] eqn:Hf.
    + exists (Z.neg e), []. rewrite (set_mode_read_fail _ _ _ Hf). reflexivity.
    + eexists _, [_]. exact (set_mode_xfers _ _ Hm Hf).
  - destruct (bus_ok 2 c) eqn:Hok.
    + rewrite (set_mode_ok mode c Hm Hok). cbn [fst snd].
      split; [ reflexivity | ]. apply reg_word_written.
      apply lor_u16; [ apply land_0x78_range | exact Hm ].
    + destruct (Z.eq_dec (fst (mcom_fpga_set_mode mode c)) 0) as [E | N].
      * rewrite (set_mode_zero_bus_ok _ _ E) in Hok. discriminate Hok.
      * revert N. unfold mcom_fpga_set_mode. run_bus.
        destruct (faults c) as [ | [e1 | ] fs1 ]; cbn; try lia.
        -- destruct (reg_word c WD_STATUS_CONTROLL <? 0) eqn:Hlt; cbn.
           ++ apply Z.ltb_lt in Hlt. lia.
           ++ lia.
        -- destruct (reg_word c WD_STATUS_CONTROLL <? 0) eqn:Hlt; cbn.
           ++ apply Z.ltb_lt in Hlt. lia.
           ++ destruct fs1 as [ | [e2 | ] fs2 ]; cbn; lia.
Qed.

Lemma set_mode_unchecked_witness :
  0 <= 3 < 65536 /\
  canonical_mode 3 = false /\
  fst (mcom_fpga_set_mode 3 (bench {[ 0 := 0x80 ]} [])) = 0 /\
  reg_word (snd (mcom_fpga_set_mode 3 (bench {[ 0 := 0x80 ]} []))) 0 = 3.
Proof.
  split; [ lia | ]. split; [ reflexivity | ].
  exact (proj2 (set_mode_unchecked 3 (bench {[ 0 := 0x80 ]} [])
                  ltac:(lia) eq_refl)).
Defined.

(** ** Stopping twice *)

Lemma script_ok_pred (n : nat) (fs : list (option positive)) :
  script_ok (S n) fs = true -> script_ok n fs = true.
Proof.
  revert fs. induction n as [ | n IH ]; intros fs H; [ reflexivity | ].
  destruct fs as [ | [e | ] fs ]; [ reflexivity | discriminate H | ].
  cbn [script_ok] in *. apply IH, H.
Qed.

Lemma bus_ok_pred (n : nat) (c : i2c_client) :
  bus_ok (S n) c = true -> bus_ok n c = true.
Proof. apply script_ok_pred. Qed.

(** The mode word is a fixed point of the masking and or-ing of a mode. *)
Lemma mode_word_again (v m : Z) :
  Z.lor (Z.land (Z.lor (Z.land v 0x78) m) 0x78) m = Z.lor (Z.land v 0x78) m.
Proof.
  rewrite Z.land_lor_distr_l, <- Z.land_assoc.
  change (Z.land 0x78 0x78) with 0x78.
  rewrite <- Z.lor_assoc. f_equal.
  apply Z.bits_inj'. intros i _.
  rewrite Z.lor_spec, Z.land_spec.
  destruct (Z.testbit m i), (Z.testbit 0x78 i); reflexivity.
Qed.

(** C8: two stops in a row, every transfer succeeding, each do the read and
    the write, and the second writes back the word the first one wrote: the
    register file after the second stop is the one after the first. *)
Theorem stop_idempotent (c : i2c_client) :
  bus_ok 4 c = true ->
  let first := mcom_fpga_stop c in
  let second := mcom_fpga_stop (snd first) in
  let v := reg_word c WD_STATUS_CONTROLL in
  let w := Z.lor (Z.land v 0x78) WD_DOWN_MODE in
  fst first = 0 /\ fst second = 0 /\
  xfers (snd second)
  = xfers c ++
    [ReadWord WD_STATUS_CONTROLL v; WriteWord WD_STATUS_CONTROLL w 0;
     ReadWord WD_STATUS_CONTROLL w; WriteWord WD_STATUS_CONTROLL w 0] /\
  reg_word (snd first) WD_STATUS_CONTROLL = w /\
  reg_word (snd second) WD_STATUS_CONTROLL = w /\
  regs (snd second) = regs (snd first).
Proof.
  intros Hok first second v w.
  assert (Hm : 0 <= WD_DOWN_MODE < 65536) by (unfold WD_DOWN_MODE; lia).
  assert (Hw : 0 <= w < 65536)
    by (apply lor_u16; [ apply land_0x78_range | exact Hm ]).
  assert (H2 : bus_ok 2 c = true) by (apply bus_ok_pred, bus_ok_pred, Hok).
  assert (E1 : first
               = (0, step_bus (WriteWord WD_STATUS_CONTROLL w 0)
                       (<[WD_STATUS_CONTROLL := w]> (regs c))
                       (step_bus (ReadWord WD_STATUS_CONTROLL v) (regs c) c)))
    by (apply (set_mode_ok _ c Hm H2)).
  assert (R1 : reg_word (snd first) WD_STATUS_CONTROLL = w)
    by (rewrite E1; apply reg_word_written, Hw).
  assert (H2' : bus_ok 2 (snd first) = true).
  { rewrite E1. cbn [snd].
    apply bus_ok_S in Hok as [_ Hok].
    specialize (Hok (ReadWord WD_STATUS_CONTROLL v) (regs c)).
    apply bus_ok_S in Hok as [_ Hok]. apply Hok. }
  pose proof (set_mode_ok _ (snd first) Hm H2') as E2. cbv zeta in E2.
  fold mcom_fpga_stop in E2. fold second in E2.
  assert (FP : Z.lor (Z.land w 0x78) WD_DOWN_MODE = w)
    by (unfold w; apply mode_word_again).
  rewrite R1, !FP in E2.
  split; [ rewrite E1; reflexivity | ].
  split; [ rewrite E2; reflexivity | ].
  split.
  { rewrite E2, E1. cbn [snd xfers step_bus]. rewrite <- !app_assoc.
    reflexivity. }
  split; [ exact R1 | ].
  split; [ rewrite E2; apply reg_word_written, Hw | ].
  rewrite E2, E1. cbn [snd regs step_bus]. apply insert_insert_eq.
Qed.

Lemma stop_idempotent_witness :
  bus_ok 4 (bench {[ 0 := 0x7A ]} []) = true /\
  fst (mcom_fpga_stop (bench {[ 0 := 0x7A ]} [])) = 0 /\
  fst (mcom_fpga_stop (snd (mcom_fpga_stop (bench {[ 0 := 0x7A ]} [])))) = 0 /\
  xfers (snd (mcom_fpga_stop (snd (mcom_fpga_stop (bench {[ 0 := 0x7A ]} [])))))
  = [ReadWord 0 0x7A; WriteWord 0 0x7C 0; ReadWord 0 0x7C; WriteWord 0 0x7C 0].
Proof.
  split; [ reflexivity | ].
  pose proof (stop_idempotent (bench {[ 0 := 0x7A ]} []) eq_refl) as H.
  cbv zeta in H. destruct H as (H1 & H2 & H3 & _).
  split; [ exact H1 | ]. split; [ exact H2 | exact H3 ].
Defined.

(** ** The timeout cache *)

(** C5, as stated, fails: the timeout 65536 is not what reaches the up-time
    register; the write carries 0. *)
Lemma set_timeout_large_not_written :
  ~ (forall (t : Z) (w : watchdog_device) (c : i2c_client),
       0 <= t < 4294967296 ->
       let res := mcom_fpga_set_timeout w t c in
       (exists r : Z, xfers (snd res) = xfers c ++ [WriteWord WD_UPTIME t r]) /\
       (fst (fst res) = 0 -> timeout (snd (fst res)) = t) /\
       (fst (fst res) <> 0 -> snd (fst res) = w)).
Proof.
  intros H.
  destruct (H 65536 {| timeout := 0 |} (bench ∅ []) ltac:(lia))
    as [[r Hr] _].
  vm_compute in Hr. congruence.
Qed.

(** C5, amended: setting a timeout [t] is one write to the up-time
    register, carrying [t] itself whenever [t <= 65535]; when the write
    succeeds the call returns 0 and the cached timeout is [t], when it
    fails the call returns the error and the device is as it was. *)
Theorem set_timeout_cache (t : Z) (w : watchdog_device) (c : i2c_client) :
  0 <= t < 4294967296 ->
  let res := mcom_fpga_set_timeout w t c in
  (exists value : Z,
     xfers (snd res) = xfers c ++ [WriteWord WD_UPTIME value (fst (fst res))] /\
     (t <= 65535 -> value = t)) /\
  match next_fault c with
  | None => fst (fst res) = 0 /\ timeout (snd (fst res)) = t
  | Some e => fst (fst res) = Z.neg e /\ snd (fst res) = w
  end.
Proof.
  intros Ht res. subst res. unfold mcom_fpga_set_timeout, bind.
  unfold i2c_smbus_write_word_data.
  destruct (next_fault c) as [e | ]; cbn.
  - split; [ | auto ]. exists (u16 t). split; [ reflexivity | ].
    intros Hs. apply u16_small. lia.
  - split; [ | auto ]. exists (u16 t). split; [ reflexivity | ].
    intros Hs. apply u16_small. lia.
Qed.

Lemma set_timeout_cache_witness :
  0 <= 300 < 4294967296 /\
  (fst (fst (mcom_fpga_set_timeout {| timeout := 60 |} 300 (bench ∅ []))) = 0 /\
   timeout (snd (fst (mcom_fpga_set_timeout {| timeout := 60 |} 300
                        (bench ∅ [])))) = 300) /\
  (fst (fst (mcom_fpga_set_timeout {| timeout := 60 |} 300
               (bench ∅ [Some 5%positive]))) = -5 /\
   snd (fst (mcom_fpga_set_timeout {| timeout := 60 |} 300
               (bench ∅ [Some 5%positive]))) = {| timeout := 60 |}).
Proof.
  split; [ lia | ]. split.
  - exact (proj2 (set_timeout_cache 300 {| timeout := 60 |} (bench ∅ [])
                    ltac:(lia))).
  - exact (proj2 (set_timeout_cache 300 {| timeout := 60 |}
                    (bench ∅ [Some 5%positive]) ltac:(lia))).
Defined.

(** C10: a timeout above 65535, set with success, reaches the 16-bit
    up-time register as [t mod 2^16] while the cache takes [t] whole, so the
    cached timeout and the register differ. *)
Theorem set_timeout_truncates (t : Z) (w : watchdog_device) (c : i2c_client) :
  65535 < t < 4294967296 ->
  next_fault c = None ->
  let res := mcom_fpga_set_timeout w t c in
  fst (fst res) = 0 /\
  xfers (snd res) = xfers c ++ [WriteWord WD_UPTIME (t mod 2 ^ 16) 0] /\
  reg_word (snd res) WD_UPTIME = t mod 2 ^ 16 /\
  timeout (snd (fst res)) = t /\
  timeout (snd (fst res)) <> reg_word (snd res) WD_UPTIME.
Proof.
  intros Ht Hf res. subst res. unfold mcom_fpga_set_timeout, bind.
  rewrite (write_word_ok _ _ _ Hf). cbn [fst snd Z.eqb ret xfers step_bus timeout].
  change (2 ^ 16) with 65536. fold (u16 t).
  rewrite (reg_word_written _ _ _ _ _ (u16_range t)).
  repeat split.
  pose proof (u16_range t). lia.
Qed.

Lemma set_timeout_truncates_witness :
  65535 < 70000 < 4294967296 /\
  next_fault (bench ∅ []) = None /\
  xfers (snd (mcom_fpga_set_timeout {| timeout := 0 |} 70000 (bench ∅ [])))
  = [WriteWord WD_UPTIME 4464 0] /\
  timeout (snd (fst (mcom_fpga_set_timeout {| timeout := 0 |} 70000
                       (bench ∅ [])))) = 70000.
Proof.
  split; [ lia | ]. split; [ reflexivity | ].
  pose proof (set_timeout_truncates 70000 {| timeout := 0 |} (bench ∅ [])
                ltac:(lia) eq_refl) as H.
  cbv zeta in H. destruct H as (_ & H2 & _ & H4 & _).
  split; [ exact H2 | exact H4 ].
Defined.

(** ** Attach *)

Ltac run_probe :=
  unfold pbind, pret, on_client, on_global, global_client,
    mcom_fpga_set_timeout; run_bus.

Section ProbeProperties.

Variable i2c_check_functionality : i2c_client -> bool.
Variable wdt_timeout : Z.
Variable watchdog_init_timeout : watchdog_device -> Z -> watchdog_device.
Variable watchdog_register_device : watchdog_device -> Z.


End ProbeProperties.


(** ** Access modes of the attributes *)

Section SysfsProperties.

Variable kstrtou16_from_user : string -> Z -> Z -> Z * Z.

(** A store callback reaches the bus only with a parsed word, and then
    with exactly one write of it. *)
Lemma store_word_xfers (buf : string) (count reg : Z) (c : i2c_client) :
  xfers (snd (mcom_fpga_store_word kstrtou16_from_user buf count reg c))
  = if fst (kstrtou16_from_user buf count 16) =? 0
    then xfers c ++
         [WriteWord reg (u16 (snd (kstrtou16_from_user buf count 16)))
            (if next_fault c is Some e then Z.neg e else 0)]
    else xfers c.
Proof.
  unfold mcom_fpga_store_word.
  destruct (kstrtou16_from_user buf count 16) as [err result]. cbn [fst snd].
  destruct (err =? 0); cbn [negb]; [ | reflexivity ].
  run_bus. destruct (faults c) as [ | [e | ] fs ]; reflexivity.
Qed.

(** Every attribute with a show callback reads its register once. *)
Lemma show_reads_once (buf : string) (c : i2c_client) :
  Forall (fun a : device_attribute =>
            match attr_show a with
            | Some show => length (xfers (snd (show buf c))) = S (length (xfers c))
            | None => True
            end)
    (mcom_fpga_attrs kstrtou16_from_user).
Proof.
  unfold mcom_fpga_attrs.
  repeat (apply Forall_cons; split);
    try apply Forall_nil; cbn [attr_show DEVICE_ATTR_RW DEVICE_ATTR_RO
      DEVICE_ATTR_WO dev_attr_status_controll dev_attr_disable_ubs
      dev_attr_uptime dev_attr_normaltime dev_attr_downtime dev_attr_ubstime
      dev_attr_perepherie_reset dev_attr_windowtime dev_attr_temperature
      dev_attr_mvb_status dev_attr_mvb_ctrl]; try exact I;
    unfold status_controll_show, disable_ubs_show, uptime_show,
      normaltime_show, downtime_show, ubstime_show, windowtime_show,
      temperature_show, mvb_status_show, mvb_ctrl_show, bind;
    unfold i2c_smbus_read_word_data;
    (destruct (next_fault c);
     [ cbn [Z.ltb Z.compare]
     | destruct (reg_word c _ <? 0) ];
     cbn [ret snd xfers step_bus]; rewrite length_app; cbn [length]; lia).
Qed.

(** C7: the attributes carry the access modes of the table: the
    temperature and the MVB status have no store callback, the peripheral
    reset has no show callback, every other register has both. An access
    in a direction without callback is refused with the client untouched,
    so no transaction is made. *)
Theorem access_modes_enforced :
  map (fun a => (attr_name a, mode_of a)) (mcom_fpga_attrs kstrtou16_from_user)
  = map (fun p => (fst p, Some (snd p))) spec_access_table /\
  (forall (buf : string) (count : Z) (c : i2c_client),
     writeRegister dev_attr_temperature buf count c = (ProtocolViolation, c)) /\
  (forall (buf : string) (count : Z) (c : i2c_client),
     writeRegister dev_attr_mvb_status buf count c = (ProtocolViolation, c)) /\
  (forall (buf : string) (c : i2c_client),
     readRegister (dev_attr_perepherie_reset kstrtou16_from_user) buf c
     = (ProtocolViolation, c)).
Proof.
  split; [ reflexivity | ]. repeat split.
Qed.

End SysfsProperties.

(** * Further properties of the driver *)

(** ** Return codes and the register file *)

Lemma reg_word_step (x : xfer) (c : i2c_client) (reg : Z) :
  reg_word (step_bus x (regs c) c) reg = reg_word c reg.
Proof. reflexivity. Qed.

Lemma reg_word_other (x : xfer) (reg reg' v : Z) (rs : gmap Z Z)
    (c : i2c_client) :
  reg' <> reg ->
  reg_word (step_bus x (<[reg' := v]> rs) c) reg
  = u16 (default 0 (rs !! reg)).
Proof.
  intros H. unfold reg_word, step_bus. cbn [regs].
  rewrite lookup_insert_ne by exact H. reflexivity.
Qed.

(** A mode change returns 0 exactly when its read and its write both
    succeed, and never a positive code. *)
Theorem set_mode_succeeds_iff (mode : Z) (c : i2c_client) :
  (fst (mcom_fpga_set_mode mode c) = 0 <-> bus_ok 2 c = true) /\
  fst (mcom_fpga_set_mode mode c) <= 0.
Proof.
  split; [ split; [ apply set_mode_zero_bus_ok | ] | ].
  - intros Hok. apply bus_ok_S in Hok as [H1 Hok].
    specialize (Hok (ReadWord WD_STATUS_CONTROLL
                       (reg_word c WD_STATUS_CONTROLL)) (regs c)).
    apply bus_ok_S in Hok as [H2 _].
    rewrite (set_mode_read_ok _ _ H1), (write_word_ok _ _ _ H2). reflexivity.
  - destruct (next_fault c) as [e | ] eqn:Hf.
    + rewrite (set_mode_read_fail _ _ _ Hf). apply Pos2Z.neg_is_nonpos.
    + rewrite (set_mode_read_ok _ _ Hf). unfold i2c_smbus_write_word_data.
      destruct (next_fault (step_bus _ _ _)); cbn [fst];
        [ apply Pos2Z.neg_is_nonpos | reflexivity ].
Qed.

Lemma set_mode_other_registers (mode reg : Z) (c : i2c_client) :
  reg <> WD_STATUS_CONTROLL ->
  reg_word (snd (mcom_fpga_set_mode mode c)) reg = reg_word c reg.
Proof.
  intros Hreg. destruct (next_fault c) as [e | ] eqn:Hf.
  - rewrite (set_mode_read_fail _ _ _ Hf). reflexivity.
  - rewrite (set_mode_read_ok _ _ Hf). unfold i2c_smbus_write_word_data.
    destruct (next_fault (step_bus _ _ _)); cbn [snd]; [ reflexivity | ].
    rewrite reg_word_other by auto. reflexivity.
Qed.

(** A mode change leaves every register but the status/control register as
    it was, and when it returns an error the whole register file. *)
Theorem set_mode_frame (mode : Z) (c : i2c_client) :
  (forall reg : Z,
     reg <> WD_STATUS_CONTROLL ->
     reg_word (snd (mcom_fpga_set_mode mode c)) reg = reg_word c reg) /\
  (fst (mcom_fpga_set_mode mode c) <> 0 ->
   regs (snd (mcom_fpga_set_mode mode c)) = regs c).
Proof.
  destruct (next_fault c) as [e | ] eqn:Hf.
  - rewrite (set_mode_read_fail _ _ _ Hf). split; reflexivity.
  - rewrite (set_mode_read_ok _ _ Hf). unfold i2c_smbus_write_word_data.
    destruct (next_fault (step_bus _ _ _)); cbn [fst snd].
    + split; reflexivity.
    + split; [ | intros N; contradiction N; reflexivity ].
      intros reg Hreg. rewrite reg_word_other by auto. reflexivity.
Qed.

Lemma kick_other_registers (reg : Z) (c : i2c_client) :
  reg <> WD_KICK -> reg_word (snd (mcom_fpga_ping c)) reg = reg_word c reg.
Proof.
  intros Hreg. assert (Hne : WD_KICK <> reg) by auto.
  unfold mcom_fpga_ping, kick_wdt. run_bus.
  destruct (faults c) as [ | [e1 | ] [ | [e2 | ] [ | [e3 | ] fs3 ] ] ]; cbn;
    unfold reg_word; cbn [regs];
    rewrite ?lookup_insert_ne by auto; reflexivity.
Qed.

(** After a change to a canonical mode, a second mode change leaves the
    register as it would have alone: the later mode wins and the bits 3 to
    6 are still those of the first value. *)
Theorem set_mode_twice (m1 m2 : Z) (c : i2c_client) :
  canonical_mode m1 = true ->
  0 <= m2 < 65536 ->
  bus_ok 4 c = true ->
  reg_word (snd (mcom_fpga_set_mode m2 (snd (mcom_fpga_set_mode m1 c))))
    WD_STATUS_CONTROLL
  = Z.lor (Z.land (reg_word c WD_STATUS_CONTROLL) 0x78) m2 /\
  reg_word (snd (mcom_fpga_set_mode m2 c)) WD_STATUS_CONTROLL
  = Z.lor (Z.land (reg_word c WD_STATUS_CONTROLL) 0x78) m2.
Proof.
  intros Hc Hm2 Hok.
  assert (Hm1 : 0 <= m1 < 65536)
    by (destruct (canonical_mode_cases _ Hc) as [-> | [-> | ->]]; lia).
  assert (H2 : bus_ok 2 c = true) by (apply bus_ok_pred, bus_ok_pred, Hok).
  pose proof (lor_u16 _ _ (land_0x78_range (reg_word c WD_STATUS_CONTROLL)) Hm1)
    as Hw1.
  pose proof (set_mode_ok m1 c Hm1 H2) as E1. cbv zeta in E1.
  assert (H2' : bus_ok 2 (snd (mcom_fpga_set_mode m1 c)) = true).
  { rewrite E1. cbn [snd].
    apply bus_ok_S in Hok as [_ Hok].
    specialize (Hok (ReadWord WD_STATUS_CONTROLL
                       (reg_word c WD_STATUS_CONTROLL)) (regs c)).
    apply bus_ok_S in Hok as [_ Hok]. apply Hok. }
  split.
  - rewrite (set_mode_ok m2 _ Hm2 H2'). cbn [snd].
    rewrite reg_word_written
      by (apply lor_u16; [ apply land_0x78_range | exact Hm2 ]).
    rewrite E1. cbn [snd]. rewrite (reg_word_written _ _ _ _ _ Hw1).
    rewrite (mode_word_kept_bits _ _ Hc). reflexivity.
  - rewrite (set_mode_ok m2 c Hm2 H2). cbn [snd].
    apply reg_word_written.
    apply lor_u16; [ apply land_0x78_range | exact Hm2 ].
Qed.

Lemma set_mode_twice_witness :
  canonical_mode WD_START_MODE = true /\
  0 <= WD_DOWN_MODE < 65536 /\
  bus_ok 4 (bench {[ 0 := 0x6A ]} []) = true /\
  reg_word (snd (mcom_fpga_stop (snd (mcom_fpga_start
                                        (bench {[ 0 := 0x6A ]} []))))) 0
  = 0x6C.
Proof.
  split; [ reflexivity | ]. split; [ unfold WD_DOWN_MODE; lia | ].
  split; [ reflexivity | ].
  exact (proj1 (set_mode_twice WD_START_MODE WD_DOWN_MODE
                  (bench {[ 0 := 0x6A ]} []) eq_refl
                  ltac:(unfold WD_DOWN_MODE; lia) eq_refl)).
Defined.

(** ** The kick register after a kick *)

(** A kick leaves every register but the kick register as it was, and a
    kick that returns 0 leaves the kick register low, whatever it held. *)
Theorem kick_register (c : i2c_client) :
  (forall reg : Z,
     reg <> WD_KICK -> reg_word (snd (mcom_fpga_ping c)) reg = reg_word c reg) /\
  (fst (mcom_fpga_ping c) = 0 -> reg_word (snd (mcom_fpga_ping c)) WD_KICK = 0).
Proof.
  assert (Hne : forall reg : Z, reg <> WD_KICK -> WD_KICK <> reg) by auto.
  unfold mcom_fpga_ping, kick_wdt. run_bus.
  destruct (faults c) as [ | [e1 | ] [ | [e2 | ] [ | [e3 | ] fs3 ] ] ]; cbn;
    repeat split; intros; try discriminate; try congruence;
    unfold reg_word; cbn [regs];
    rewrite ?lookup_insert_eq; rewrite ?lookup_insert_ne by auto;
    reflexivity.
Qed.

(** ** The cached timeout and the up-time register *)

(** Setting a timeout with success makes the cache and the register agree
    in the sixteen bits of the register; and no watchdog operation, whatever
    its outcome, breaks that agreement once it holds. *)
Theorem operations_keep_coherent (w : watchdog_device) (c : i2c_client)
    (t mode : Z) :
  (fst (fst (mcom_fpga_set_timeout w t c)) = 0 ->
   coherent (snd (fst (mcom_fpga_set_timeout w t c)))
     (snd (mcom_fpga_set_timeout w t c))) /\
  (coherent w c ->
   coherent (snd (fst (mcom_fpga_set_timeout w t c)))
     (snd (mcom_fpga_set_timeout w t c)) /\
   coherent w (snd (mcom_fpga_set_mode mode c)) /\
   coherent w (snd (mcom_fpga_ping c))).
Proof.
  assert (Hset : fst (fst (mcom_fpga_set_timeout w t c)) = 0 ->
                 coherent (snd (fst (mcom_fpga_set_timeout w t c)))
                   (snd (mcom_fpga_set_timeout w t c))).
  { unfold mcom_fpga_set_timeout, bind, i2c_smbus_write_word_data.
    destruct (next_fault c) as [e | ]; cbn [fst snd Z.eqb ret].
    - discriminate.
    - intros _. unfold coherent. cbn [timeout].
      apply reg_word_written, u16_range. }
  split; [ exact Hset | ]. intros Hco. split; [ | split ].
  - destruct (Z.eq_dec (fst (fst (mcom_fpga_set_timeout w t c))) 0) as [E | N];
      [ exact (Hset E) | ].
    revert N. unfold mcom_fpga_set_timeout, bind, i2c_smbus_write_word_data.
    destruct (next_fault c) as [e | ]; cbn [fst snd Z.eqb ret].
    + intros _. exact Hco.
    + intros N. contradiction N. reflexivity.
  - unfold coherent.
    rewrite set_mode_other_registers by discriminate.
    exact Hco.
  - unfold coherent.
    rewrite kick_other_registers by discriminate.
    exact Hco.
Qed.

Lemma operations_keep_coherent_witness :
  coherent {| timeout := 70000 |} (bench {[ WD_UPTIME := 4464 ]} []) /\
  coherent {| timeout := 90 |}
    (snd (mcom_fpga_set_timeout {| timeout := 70000 |} 90
            (bench {[ WD_UPTIME := 4464 ]} []))) /\
  coherent {| timeout := 70000 |}
    (snd (mcom_fpga_set_mode 1 (bench {[ WD_UPTIME := 4464 ]} []))) /\
  coherent {| timeout := 70000 |}
    (snd (mcom_fpga_ping (bench {[ WD_UPTIME := 4464 ]} []))).
Proof.
  assert (H : coherent {| timeout := 70000 |} (bench {[ WD_UPTIME := 4464 ]} []))
    by reflexivity.
  split; [ exact H | ].
  exact (proj2 (operations_keep_coherent {| timeout := 70000 |}
                  (bench {[ WD_UPTIME := 4464 ]} []) 90 1) H).
Defined.

(** ** Probe: the guards and what gets registered *)

Section ProbeFurther.

Variable i2c_check_functionality : i2c_client -> bool.
Variable kzalloc_ok : bool.
Variable wdt_timeout : Z.
Variable watchdog_init_timeout : watchdog_device -> Z -> watchdog_device.
Variable watchdog_register_device : watchdog_device -> Z.

(** A probe stopped by one of its guards makes no transfer at all, on
    either handle, and registers nothing: missing adapter functionality or
    an address other than 0x3c gives -ENODEV, and only then does a failed
    allocation give -ENOMEM. *)
Theorem probe_guards (s : probe_handles) :
  negb (i2c_check_functionality (client s)) || negb (addr (client s) =? 0x3c)
  || negb kzalloc_ok = true ->
  mcom_fpga_probe i2c_check_functionality kzalloc_ok wdt_timeout
    watchdog_init_timeout watchdog_register_device s
  = ({| probe_ret :=
          if i2c_check_functionality (client s) && (addr (client s) =? 0x3c)
          then - ENOMEM else - ENODEV;
        clientdata := None;
        registered := None |}, s).
Proof.
  unfold mcom_fpga_probe, devm_kzalloc.
  destruct (i2c_check_functionality (client s)), (addr (client s) =? 0x3c),
    kzalloc_ok;
    cbn [negb orb andb]; intros H; try discriminate H; reflexivity.
Qed.

(** Whenever a probe reaches the registration, the device it registers is
    the one attached to the client as driver data, the probe returns what
    the registration returns, and the up-time register of the probed
    client agrees with the cached timeout of that device in its sixteen
    bits, whichever client [mcom_fpga_client] designates. *)
Theorem probe_registers_coherent (s : probe_handles) (w : watchdog_device) :
  registered (fst (mcom_fpga_probe i2c_check_functionality kzalloc_ok
                     wdt_timeout watchdog_init_timeout
                     watchdog_register_device s)) = Some w ->
  let res := mcom_fpga_probe i2c_check_functionality kzalloc_ok wdt_timeout
               watchdog_init_timeout watchdog_register_device s in
  coherent w (client (snd res)) /\
  clientdata (fst res) = Some {| wdd := w |} /\
  probe_ret (fst res) = watchdog_register_device w.
Proof.
  assert (Hne : WD_UPTIME <> 0x06) by discriminate.
  destruct s as [c g].
  pose proof (reg_word_range c WD_UPTIME) as Hv.
  assert (H32 : u32 (reg_word c WD_UPTIME) = reg_word c WD_UPTIME)
    by (apply u32_small; lia).
  cbv zeta. unfold mcom_fpga_probe, devm_kzalloc, coherent.
  cbn [client mcom_fpga_client].
  destruct (i2c_check_functionality c); cbn [negb]; [ | discriminate ].
  destruct (addr c =? 0x3c); cbn [negb]; [ | discriminate ].
  destruct kzalloc_ok; [ | discriminate ].
  cbn [wdd].
  destruct (timeout (watchdog_init_timeout _ _) =? 0) eqn:Ht.
  - run_probe.
    destruct (faults c) as [ | [e1 | ] fs1 ]; cbn.
    + destruct (reg_word c WD_UPTIME <? 0); cbn; [ discriminate | ].
      rewrite H32.
      destruct g as [g | ]; [ destruct (faults g) as [ | [e | ] fs ] | ]; cbn;
        try discriminate;
        (intros [= <-]; cbn [timeout]; repeat split;
         unfold reg_word; cbn [regs];
         rewrite ?(lookup_insert_ne _ 6) by auto; rewrite lookup_insert_eq;
         cbn; apply u16_small, u16_range).
    + discriminate.
    + destruct (reg_word c WD_UPTIME <? 0); cbn; [ discriminate | ].
      rewrite H32.
      destruct fs1 as [ | [e2 | ] fs2 ]; cbn; try discriminate;
        (destruct g as [g | ];
         [ destruct (faults g) as [ | [e | ] fs ]
         | try destruct fs2 as [ | [e3 | ] fs3 ] ]; cbn;
         try discriminate;
         (intros [= <-]; cbn [timeout]; repeat split;
          unfold reg_word; cbn [regs];
          rewrite ?(lookup_insert_ne _ 6) by auto; rewrite lookup_insert_eq;
          cbn; apply u16_small, u16_range)).
  - run_probe.
    destruct (faults c) as [ | [e1 | ] fs1 ]; cbn; try discriminate;
      (destruct g as [g | ];
       [ destruct (faults g) as [ | [e | ] fs ]
       | try destruct fs1 as [ | [e2 | ] fs2 ] ]; cbn;
       try discriminate;
       (intros [= <-]; cbn [timeout]; repeat split;
        unfold reg_word; cbn [regs];
        rewrite ?(lookup_insert_ne _ 6) by auto; rewrite lookup_insert_eq;
        cbn; apply u16_small, u16_range)).
Qed.


End ProbeFurther.

Lemma probe_guards_witness :
  mcom_fpga_probe (fun _ => true) true 0 override_timeout (fun _ => 0)
    {| client := {| addr := 0x3d; regs := ∅; faults := []; xfers := [] |};
       mcom_fpga_client := Some (bench ∅ []) |}
  = ({| probe_ret := -19; clientdata := None; registered := None |},
     {| client := {| addr := 0x3d; regs := ∅; faults := []; xfers := [] |};
        mcom_fpga_client := Some (bench ∅ []) |}).
Proof.
  exact (probe_guards (fun _ => true) true 0 override_timeout (fun _ => 0)
           {| client := {| addr := 0x3d; regs := ∅; faults := []; xfers := [] |};
              mcom_fpga_client := Some (bench ∅ []) |} eq_refl).
Defined.

Lemma probe_registers_coherent_witness :
  registered (fst (mcom_fpga_probe (fun _ => true) true 70000 override_timeout
                     (fun _ => 0)
                     {| client := bench ∅ []; mcom_fpga_client := None |}))
  = Some {| timeout := 70000 |} /\
  reg_word (client (snd (mcom_fpga_probe (fun _ => true) true 70000
                           override_timeout (fun _ => 0)
                           {| client := bench ∅ [];
                              mcom_fpga_client := None |}))) WD_UPTIME
  = 4464.
Proof.
  assert (H : registered (fst (mcom_fpga_probe (fun _ => true) true 70000
                                 override_timeout (fun _ => 0)
                                 {| client := bench ∅ [];
                                    mcom_fpga_client := None |}))
              = Some {| timeout := 70000 |}) by reflexivity.
  split; [ exact H | ].
  exact (proj1 (probe_registers_coherent (fun _ => true) true 70000
                  override_timeout (fun _ => 0)
                  {| client := bench ∅ []; mcom_fpga_client := None |}
                  {| timeout := 70000 |} H)).
Defined.


(** ** The attributes and their registers *)

Lemma hex_digit_inj (a b : Z) : hex_digit a = hex_digit b -> a mod 16 = b mod 16.
Proof.
  unfold hex_digit.
  pose proof (Z.mod_pos_bound a 16 ltac:(lia)) as Ha.
  pose proof (Z.mod_pos_bound b 16 ltac:(lia)) as Hb.
  set (x := a mod 16) in *. set (y := b mod 16) in *.
  assert (Cx : x = 0 \/ x = 1 \/ x = 2 \/ x = 3 \/ x = 4 \/ x = 5 \/ x = 6 \/
               x = 7 \/ x = 8 \/ x = 9 \/ x = 10 \/ x = 11 \/ x = 12 \/
               x = 13 \/ x = 14 \/ x = 15) by lia.
  assert (Cy : y = 0 \/ y = 1 \/ y = 2 \/ y = 3 \/ y = 4 \/ y = 5 \/ y = 6 \/
               y = 7 \/ y = 8 \/ y = 9 \/ y = 10 \/ y = 11 \/ y = 12 \/
               y = 13 \/ y = 14 \/ y = 15) by lia.
  clearbody x y.
  repeat (destruct Cx as [-> | Cx]);
    repeat (destruct Cy as [-> | Cy]); subst;
    intros H; first [ reflexivity | discriminate H ].
Qed.

(** The text shown for a register word tells the word: two different
    words of sixteen bits are shown as different texts. *)
Theorem sysfs_text_determines_word (v1 v2 : Z) :
  0 <= v1 < 65536 ->
  0 <= v2 < 65536 ->
  v1 <> v2 ->
  snd (sysfs_emit_word v1) <> snd (sysfs_emit_word v2).
Proof.
  intros H1 H2 Hne H. apply Hne. unfold sysfs_emit_word in H. cbn [snd] in H.
  injection H as E3 E2 E1 E0.
  apply hex_digit_inj in E3, E2, E1, E0.
  revert E3 E2 E1 E0. Z.div_mod_to_equations. lia.
Qed.

Lemma sysfs_text_determines_word_witness :
  0 <= 0x00FF < 65536 /\ 0 <= 0xFF00 < 65536 /\ 0x00FF <> 0xFF00 /\
  snd (sysfs_emit_word 0x00FF) <> snd (sysfs_emit_word 0xFF00).
Proof.
  split; [ lia | ]. split; [ lia | ]. split; [ lia | ].
  exact (sysfs_text_determines_word 0x00FF 0xFF00 ltac:(lia) ltac:(lia)
           ltac:(lia)).
Defined.

Lemma show_word_run (reg : Z) (buf : string) (c : i2c_client) :
  show_word reg buf c
  = match next_fault c with
    | Some e => ((Z.neg e, buf), step_bus (ReadWord reg (Z.neg e)) (regs c) c)
    | None =>
        (sysfs_emit_word (reg_word c reg),
         step_bus (ReadWord reg (reg_word c reg)) (regs c) c)
    end.
Proof.
  unfold show_word, bind, i2c_smbus_read_word_data.
  destruct (next_fault c) as [e | ]; [ reflexivity | ].
  pose proof (reg_word_range c reg) as Hr.
  destruct (Z.ltb_spec (reg_word c reg) 0) as [Hlt | _]; [ lia | reflexivity ].
Qed.

Section SysfsFurther.

Variable kstrtou16_from_user : string -> Z -> Z -> Z * Z.

(** Each attribute's callbacks are the common show body and the word store
    at the attribute's register. *)
Lemma attrs_shape :
  Forall2 (fun (a : device_attribute) (reg : Z) =>
             (forall show, attr_show a = Some show -> show = show_word reg) /\
             (forall store, attr_store a = Some store ->
                store = fun buf count =>
                          mcom_fpga_store_word kstrtou16_from_user buf count reg))
    (mcom_fpga_attrs kstrtou16_from_user) attr_regs.
Proof.
  unfold mcom_fpga_attrs, attr_regs.
  repeat (constructor;
          [ split; intros f H; cbn in H;
            first [ discriminate H | injection H as <-; reflexivity ] | ]).
  constructor.
Qed.

Lemma attr_regs_NoDup : NoDup attr_regs.
Proof. compute_done. Qed.

Lemma store_word_run (buf : string) (count reg x : Z) (c : i2c_client) :
  kstrtou16_from_user buf count 16 = (0, x) ->
  next_fault c = None ->
  mcom_fpga_store_word kstrtou16_from_user buf count reg c
  = (count, step_bus (WriteWord reg (u16 x) 0) (<[reg := u16 x]> (regs c)) c).
Proof.
  intros Hp Hf. unfold mcom_fpga_store_word, bind. rewrite Hp.
  cbn [Z.eqb negb]. rewrite (write_word_ok _ _ _ Hf). reflexivity.
Qed.

Lemma attr_register (a : device_attribute) :
  a ∈ mcom_fpga_attrs kstrtou16_from_user ->
  exists (i : nat) (reg : Z),
    mcom_fpga_attrs kstrtou16_from_user !! i = Some a /\
    attr_regs !! i = Some reg /\
    (forall show, attr_show a = Some show -> show = show_word reg) /\
    (forall store, attr_store a = Some store ->
       store = fun buf count =>
                 mcom_fpga_store_word kstrtou16_from_user buf count reg).
Proof.
  intros Ha. apply list_elem_of_lookup_1 in Ha as [i Hi].
  destruct (Forall2_lookup_l _ _ _ _ _ attrs_shape Hi) as (reg & Hr & Hs).
  exists i, reg. auto.
Qed.

(** Reading an attribute of the table is one read on the bus and leaves
    the register file as it was. It returns 7 with a text of seven
    characters, or, when the read fails, the negative error with the
    buffer as it was handed in. *)
Theorem show_leaves_registers (a : device_attribute)
    (show : string -> M (Z * string)) (buf : string) (c : i2c_client) :
  a ∈ mcom_fpga_attrs kstrtou16_from_user ->
  attr_show a = Some show ->
  regs (snd (show buf c)) = regs c /\
  length (xfers (snd (show buf c))) = S (length (xfers c)) /\
  ((next_fault c = None /\ fst (fst (show buf c)) = 7 /\
    String.length (snd (fst (show buf c))) = 7%nat) \/
   (exists e : positive,
      next_fault c = Some e /\ fst (show buf c) = (Z.neg e, buf))).
Proof.
  intros Ha Hs. destruct (attr_register a Ha) as (i & reg & _ & _ & Hshow & _).
  rewrite (Hshow _ Hs), show_word_run.
  destruct (next_fault c) as [e | ]; cbn [fst snd regs xfers step_bus];
    rewrite length_app; cbn [length].
  - split; [ reflexivity | ]. split; [ lia | ]. right. exists e. auto.
  - split; [ reflexivity | ]. split; [ lia | ]. left. auto.
Qed.

(** A word stored through an attribute with both callbacks is the word the
    attribute shows next: the store returns the count it was given and the
    following show emits the text of the stored word. *)
Theorem store_then_show (a : device_attribute)
    (store : string -> Z -> M Z) (show : string -> M (Z * string))
    (buf buf' : string) (count x : Z) (c : i2c_client) :
  a ∈ mcom_fpga_attrs kstrtou16_from_user ->
  attr_store a = Some store ->
  attr_show a = Some show ->
  kstrtou16_from_user buf count 16 = (0, x) ->
  bus_ok 2 c = true ->
  fst (store buf count c) = count /\
  fst (show buf' (snd (store buf count c))) = sysfs_emit_word (u16 x).
Proof.
  intros Ha Hst Hsh Hp Hok.
  destruct (attr_register a Ha) as (i & reg & _ & _ & Hshow & Hstore).
  rewrite (Hshow _ Hsh), (Hstore _ Hst).
  apply bus_ok_S in Hok as [H1 Hok].
  rewrite (store_word_run _ _ _ _ _ Hp H1). cbn [fst snd].
  split; [ reflexivity | ].
  rewrite show_word_run.
  specialize (Hok (WriteWord reg (u16 x) 0) (<[reg := u16 x]> (regs c))).
  apply bus_ok_S in Hok as [H2 _]. rewrite H2. cbn [fst].
  rewrite reg_word_written by apply u16_range. reflexivity.
Qed.

(** A store through one attribute does not change what another attribute
    of the table shows. *)
Lemma store_keeps_other_shows (i j : nat) (a b : device_attribute)
    (store : string -> Z -> M Z) (show : string -> M (Z * string))
    (buf buf' : string) (count : Z) (c : i2c_client) :
  mcom_fpga_attrs kstrtou16_from_user !! i = Some a ->
  mcom_fpga_attrs kstrtou16_from_user !! j = Some b ->
  i <> j ->
  attr_store a = Some store ->
  attr_show b = Some show ->
  bus_ok 2 c = true ->
  fst (show buf' (snd (store buf count c))) = fst (show buf' c).
Proof.
  intros Hi Hj Hij Hst Hsh Hok.
  destruct (Forall2_lookup_l _ _ _ _ _ attrs_shape Hi) as (ra & Hra & _ & Hstore).
  destruct (Forall2_lookup_l _ _ _ _ _ attrs_shape Hj) as (rb & Hrb & Hshow & _).
  assert (Hne : ra <> rb).
  { intros ->. apply Hij. exact (NoDup_lookup _ _ _ _ attr_regs_NoDup Hra Hrb). }
  rewrite (Hshow _ Hsh), (Hstore _ Hst).
  apply bus_ok_S in Hok as [H1 Hok].
  rewrite !show_word_run, H1.
  unfold mcom_fpga_store_word, bind.
  destruct (kstrtou16_from_user buf count 16) as [err x].
  destruct (err =? 0); cbn [negb ret snd].
  - rewrite (write_word_ok _ _ _ H1).
    specialize (Hok (WriteWord ra (u16 x) 0) (<[ra := u16 x]> (regs c))).
    apply bus_ok_S in Hok as [H2 _].
    cbn [Z.eqb negb ret snd]. rewrite H2. cbn [fst].
    rewrite reg_word_other by exact Hne. reflexivity.
  - rewrite H1. reflexivity.
Qed.

Lemma attrs_have_callback :
  Forall (fun a : device_attribute => mode_of a <> None)
    (mcom_fpga_attrs kstrtou16_from_user).
Proof. unfold mcom_fpga_attrs. repeat constructor; discriminate. Qed.

Lemma attr_addresses (i : nat) (a : device_attribute) (reg : Z) :
  mcom_fpga_attrs kstrtou16_from_user !! i = Some a ->
  attr_regs !! i = Some reg ->
  addresses kstrtou16_from_user a reg.
Proof.
  intros Hi Hr.
  destruct (Forall2_lookup_l _ _ _ _ _ attrs_shape Hi) as (r & Hr' & Hshow & Hstore).
  assert (r = reg) as -> by congruence.
  split; [ | split ].
  - exact (proj1 (Forall_lookup _ _) attrs_have_callback _ _ Hi).
  - intros show buf c Hs. rewrite (Hshow _ Hs), show_word_run.
    destruct (next_fault c); cbn [snd xfers step_bus];
      rewrite map_app; reflexivity.
  - intros store buf count c Hs Hp. rewrite (Hstore _ Hs), store_word_xfers.
    apply Z.eqb_eq in Hp. rewrite Hp, map_app. reflexivity.
Qed.

(** The attributes of the table address pairwise different registers:
    any two of them, whatever callbacks they have, make their transfers on
    two different registers. So a store through one attribute does not
    change what another one shows. *)
Theorem attributes_address_different_registers (i j : nat)
    (a b : device_attribute) :
  mcom_fpga_attrs kstrtou16_from_user !! i = Some a ->
  mcom_fpga_attrs kstrtou16_from_user !! j = Some b ->
  i <> j ->
  (exists ra rb : Z,
     ra <> rb /\
     addresses kstrtou16_from_user a ra /\
     addresses kstrtou16_from_user b rb) /\
  (forall (store : string -> Z -> M Z) (show : string -> M (Z * string))
          (buf buf' : string) (count : Z) (c : i2c_client),
     attr_store a = Some store ->
     attr_show b = Some show ->
     bus_ok 2 c = true ->
     fst (show buf' (snd (store buf count c))) = fst (show buf' c)).
Proof.
  intros Hi Hj Hij. split.
  - destruct (Forall2_lookup_l _ _ _ _ _ attrs_shape Hi) as (ra & Hra & _).
    destruct (Forall2_lookup_l _ _ _ _ _ attrs_shape Hj) as (rb & Hrb & _).
    exists ra, rb. split; [ | split ].
    + intros ->. apply Hij.
      exact (NoDup_lookup _ _ _ _ attr_regs_NoDup Hra Hrb).
    + exact (attr_addresses _ _ _ Hi Hra).
    + exact (attr_addresses _ _ _ Hj Hrb).
  - intros store show buf buf' count c Hst Hsh Hok.
    exact (store_keeps_other_shows i j a b store show buf buf' count c
             Hi Hj Hij Hst Hsh Hok).
Qed.

(** A text the parser refuses never reaches the bus, through whichever
    attribute it is stored: the store returns the parser's error and the
    client is as it was. *)
Theorem store_unparsed_no_bus (a : device_attribute)
    (store : string -> Z -> M Z) (buf : string) (count : Z) (c : i2c_client) :
  a ∈ mcom_fpga_attrs kstrtou16_from_user ->
  attr_store a = Some store ->
  fst (kstrtou16_from_user buf count 16) <> 0 ->
  store buf count c = (fst (kstrtou16_from_user buf count 16), c).
Proof.
  intros Ha Hst Hp.
  destruct (attr_register a Ha) as (i & reg & _ & _ & _ & Hstore).
  rewrite (Hstore _ Hst). unfold mcom_fpga_store_word.
  destruct (kstrtou16_from_user buf count 16) as [err x]. cbn [fst] in *.
  apply Z.eqb_neq in Hp. rewrite Hp. reflexivity.
Qed.

(** A store that does not return the count it was given, because the text
    did not parse or the bus refused the write, leaves the whole register
    file as it was. *)
Theorem store_error_leaves_registers (buf : string) (count reg : Z)
    (c : i2c_client) :
  fst (mcom_fpga_store_word kstrtou16_from_user buf count reg c) <> count ->
  regs (snd (mcom_fpga_store_word kstrtou16_from_user buf count reg c))
  = regs c.
Proof.
  unfold mcom_fpga_store_word, bind, i2c_smbus_write_word_data.
  destruct (kstrtou16_from_user buf count 16) as [err x].
  destruct (err =? 0); cbn [negb ret fst snd]; [ | reflexivity ].
  destruct (next_fault c) as [e | ]; cbn [Z.eqb negb ret fst snd];
    [ reflexivity | ].
  intros N. contradiction N. reflexivity.
Qed.

(** A word stored through the [uptime] attribute reaches the up-time
    register behind the back of the cached timeout: afterwards the two
    agree only if the word stored is the cached timeout in its sixteen
    bits. *)
Theorem uptime_store_coherent_iff (w : watchdog_device) (buf : string)
    (count x : Z) (c : i2c_client) :
  kstrtou16_from_user buf count 16 = (0, x) ->
  next_fault c = None ->
  (coherent w (snd (uptime_store kstrtou16_from_user buf count c))
   <-> u16 x = u16 (timeout w)).
Proof.
  intros Hp Hf. unfold uptime_store, coherent.
  rewrite (store_word_run _ _ _ _ _ Hp Hf). cbn [snd].
  rewrite reg_word_written by apply u16_range. reflexivity.
Qed.

End SysfsFurther.

Lemma show_leaves_registers_witness :
  dev_attr_temperature ∈ mcom_fpga_attrs (fun _ _ _ => (0, 0)) /\
  attr_show dev_attr_temperature = Some temperature_show /\
  regs (snd (temperature_show EmptyString (bench {[ WD_TEMP := 0x0019 ]} [])))
  = {[ WD_TEMP := 0x0019 ]} /\
  length (xfers (snd (temperature_show EmptyString
                        (bench {[ WD_TEMP := 0x0019 ]} [])))) = 1%nat.
Proof.
  assert (Ha : dev_attr_temperature ∈ mcom_fpga_attrs (fun _ _ _ => (0, 0)))
    by (apply (list_elem_of_lookup_2 _ 8%nat); reflexivity).
  split; [ exact Ha | ]. split; [ reflexivity | ].
  pose proof (show_leaves_registers (fun _ _ _ => (0, 0)) dev_attr_temperature
                temperature_show EmptyString
                (bench {[ WD_TEMP := 0x0019 ]} []) Ha eq_refl) as H.
  destruct H as (H1 & H2 & _). split; [ exact H1 | exact H2 ].
Defined.

Lemma store_then_show_witness :
  dev_attr_normaltime (fun _ _ _ => (0, 0x1234))
    ∈ mcom_fpga_attrs (fun _ _ _ => (0, 0x1234)) /\
  bus_ok 2 (bench ∅ []) = true /\
  fst (normaltime_store (fun _ _ _ => (0, 0x1234)) "1234" 4 (bench ∅ [])) = 4 /\
  fst (normaltime_show EmptyString
         (snd (normaltime_store (fun _ _ _ => (0, 0x1234)) "1234" 4
                 (bench ∅ []))))
  = sysfs_emit_word (u16 0x1234).
Proof.
  assert (Ha : dev_attr_normaltime (fun _ _ _ => (0, 0x1234))
                 ∈ mcom_fpga_attrs (fun _ _ _ => (0, 0x1234)))
    by (apply (list_elem_of_lookup_2 _ 3%nat); reflexivity).
  split; [ exact Ha | ]. split; [ reflexivity | ].
  exact (store_then_show (fun _ _ _ => (0, 0x1234)) _ _ _ "1234" EmptyString
           4 0x1234 (bench ∅ []) Ha eq_refl eq_refl eq_refl eq_refl).
Defined.

Lemma attributes_address_different_registers_witness :
  8%nat <> 9%nat /\
  exists ra rb : Z,
    ra <> rb /\
    addresses (fun _ _ _ => (0, 0x1234)) dev_attr_temperature ra /\
    addresses (fun _ _ _ => (0, 0x1234)) dev_attr_mvb_status rb.
Proof.
  split; [ lia | ].
  exact (proj1 (attributes_address_different_registers
                  (fun _ _ _ => (0, 0x1234)) 8 9 _ _
                  eq_refl eq_refl ltac:(lia))).
Defined.

Lemma store_unparsed_no_bus_witness :
  dev_attr_windowtime (fun _ _ _ => (-22, 0))
    ∈ mcom_fpga_attrs (fun _ _ _ => (-22, 0)) /\
  windowtime_store (fun _ _ _ => (-22, 0)) "zz" 2 (bench ∅ [])
  = (-22, bench ∅ []).
Proof.
  assert (Ha : dev_attr_windowtime (fun _ _ _ => (-22, 0))
                 ∈ mcom_fpga_attrs (fun _ _ _ => (-22, 0)))
    by (apply (list_elem_of_lookup_2 _ 7%nat); reflexivity).
  split; [ exact Ha | ].
  exact (store_unparsed_no_bus (fun _ _ _ => (-22, 0)) _ _ "zz" 2 (bench ∅ [])
           Ha eq_refl ltac:(discriminate)).
Defined.

Lemma uptime_store_coherent_iff_witness :
  next_fault (bench {[ WD_UPTIME := 60 ]} []) = None /\
  ~ coherent {| timeout := 60 |}
      (snd (uptime_store (fun _ _ _ => (0, 0x1234)) "1234" 4
              (bench {[ WD_UPTIME := 60 ]} []))).
Proof.
  split; [ reflexivity | ].
  intros H.
  apply (uptime_store_coherent_iff (fun _ _ _ => (0, 0x1234))
           {| timeout := 60 |} "1234" 4 0x1234
           (bench {[ WD_UPTIME := 60 ]} []) eq_refl eq_refl) in H.
  discriminate H.
Defined.

Lemma store_error_leaves_registers_witness :
  fst (mcom_fpga_store_word (fun _ _ _ => (0, 0x1234)) "1234" 4 WD_DOWNTIME
         (bench {[ WD_DOWNTIME := 7 ]} [Some 5%positive])) <> 4 /\
  regs (snd (mcom_fpga_store_word (fun _ _ _ => (0, 0x1234)) "1234" 4
               WD_DOWNTIME (bench {[ WD_DOWNTIME := 7 ]} [Some 5%positive])))
  = {[ WD_DOWNTIME := 7 ]}.
Proof.
  assert (H : fst (mcom_fpga_store_word (fun _ _ _ => (0, 0x1234)) "1234" 4
                     WD_DOWNTIME
                     (bench {[ WD_DOWNTIME := 7 ]} [Some 5%positive])) <> 4)
    by discriminate.
  split; [ exact H | ].
  exact (store_error_leaves_registers (fun _ _ _ => (0, 0x1234)) "1234" 4
           WD_DOWNTIME (bench {[ WD_DOWNTIME := 7 ]} [Some 5%positive]) H).
Defined.
